(** * mongodb_query: a shallow embedding of [database/misc/mongodb_query.py]

    The module reads its parameters through Ansible's [AnsibleModule],
    normalises the [sort] parameter, runs one [find] through pymongo and
    prints the result with [bson.json_util].  The embedding follows the
    source top to bottom: the import block that decides which names are
    bound, [_fix_sort_parameter], and [main].

    Python values are a small inductive type; strings are byte strings with
    the ASCII case mapping of Python 2's [str.upper].  Effects are explicit:
    [result] carries exceptions and [fail_json], and [M] threads the record
    of driver calls and of what was printed. *)

From Stdlib Require Import ZArith Ascii String List Bool Lia.
From stdpp Require Import base option list strings gmap.

Set Warnings "-register-all".

Local Open Scope string_scope.
Local Open Scope list_scope.
Local Open Scope Z_scope.

(** ** Python values *)

Inductive pyval : Type :=
  | PNone
  | PBool (b : bool)
  | PInt (n : Z)
  | PStr (s : string)
  | PList (items : list pyval)
  | PDict (kvs : list (string * pyval))
  | PObjectId (hex : string)
  | PDatetime (millis : Z).

(** Exceptions of the driver, each with the message [str(e)] gives:
    [ConnectionFailure] stands for [pymongo.errors.ConnectionFailure] and
    its subclasses, [OperationFailure] likewise, [DriverError] for every
    other exception raised inside the driver (InvalidName, InvalidURI,
    ...). *)
Inductive driver_exn : Type :=
  | ConnectionFailure (msg : string)
  | OperationFailure (msg : string)
  | DriverError (msg : string).

Inductive exn : Type :=
  | NameError (name : string)
  | AttributeError (attr : string)
  | TypeError (what : string)
  | IndexError
  | KeyError (key : string)
  | SystemExit (code : Z)
  | DriverExn (e : driver_exn).

(** ** Outcomes

    [FailJson msg] is [module.fail_json(msg=msg)]: the structured failure
    handed to the invoking runtime, after which the process is gone.
    [Raise e] is a Python exception on its way up. *)
Inductive result (A : Type) : Type :=
  | Ret (a : A)
  | Raise (e : exn)
  | FailJson (msg : string).
Arguments Ret {A} a.
Arguments Raise {A} e.
Arguments FailJson {A} msg.

#[global] Instance result_ret : MRet result := fun A a => Ret a.
#[global] Instance result_bind : MBind result := fun A B f m =>
  match m with
  | Ret a => f a
  | Raise e => Raise e
  | FailJson msg => FailJson msg
  end.

Definition fail_json {A} (msg : string) : result A := FailJson msg.

(** ** Strings: [str.upper] and case-insensitive equality *)

Definition ascii_upper (c : ascii) : ascii :=
  let n := nat_of_ascii c in
  if ((97 <=? n) && (n <=? 122))%nat then ascii_of_nat (n - 32) else c.

Definition ascii_lower (c : ascii) : ascii :=
  let n := nat_of_ascii c in
  if ((65 <=? n) && (n <=? 90))%nat then ascii_of_nat (n + 32) else c.

Fixpoint upper (s : string) : string :=
  match s with
  | EmptyString => EmptyString
  | String c s' => String (ascii_upper c) (upper s')
  end.

Fixpoint lower (s : string) : string :=
  match s with
  | EmptyString => EmptyString
  | String c s' => String (ascii_lower c) (lower s')
  end.

(** The specification's reading of "case-insensitively equals": the two
    strings agree once case is folded away.  It is stated with [lower] so
    that it does not repeat what the source does, which is [upper] followed
    by [==]. *)
Definition eq_nocase (s t : string) : Prop := lower s = lower t.

#[global] Instance eq_nocase_dec s t : Decision (eq_nocase s t).
Proof. unfold eq_nocase. apply _. Defined.

(** ** Module globals: the import block (lines 117-132)

    [Installed] says which import statements of the block can succeed on the
    host.  A [from ... import] binds its names only when it succeeds, and the
    first failure leaves the [try] body. *)
Record Installed : Type := {
  bson_json_util : bool;             (* from bson import json_util *)
  pymongo_sort_constants : bool;     (* from pymongo import ASCENDING, DESCENDING *)
  pymongo_ConnectionFailure : bool;  (* from pymongo.errors import ConnectionFailure *)
  pymongo_OperationFailure : bool;   (* from pymongo.errors import OperationFailure *)
  pymongo_version : bool;            (* from pymongo import version as PyMongoVersion *)
  pymongo_MongoClient : bool;        (* from pymongo import MongoClient *)
  pymongo_Connection : bool          (* from pymongo import Connection as MongoClient *)
}.

Record Globals : Type := {
  bound : gset string;
  pymongo_found : bool
}.

(** The statements of the [try] body, in order: availability and the names
    each one binds. *)
Definition import_statements (h : Installed) : list (bool * list string) :=
  [ (bson_json_util h, ["json_util"]);
    (pymongo_sort_constants h, ["ASCENDING"; "DESCENDING"]);
    (pymongo_ConnectionFailure h, ["ConnectionFailure"]);
    (pymongo_OperationFailure h, ["OperationFailure"]);
    (pymongo_version h, ["PyMongoVersion"]);
    (pymongo_MongoClient h, ["MongoClient"]) ].

(** Runs the statements until one raises ImportError; returns the names bound
    so far and whether the whole body went through. *)
Fixpoint run_imports (stmts : list (bool * list string)) (acc : gset string)
  : gset string * bool :=
  match stmts with
  | [] => (acc, true)
  | (true, names) :: rest => run_imports rest (list_to_set names ∪ acc)
  | (false, _) :: _ => (acc, false)
  end.

Definition import_block (h : Installed) : Globals :=
  match run_imports (import_statements h) ∅ with
  | (names, true) => {| bound := names; pymongo_found := true |}
  | (names, false) =>
      if pymongo_Connection h
      then {| bound := {["MongoClient"]} ∪ names; pymongo_found := true |}
      else {| bound := names; pymongo_found := false |}
  end.

(** Reading a global name. *)
Definition lookup_name (g : Globals) (name : string) : result unit :=
  if decide (name ∈ bound g) then Ret tt else Raise (NameError name).

(** Modelled from the spec: the two sort constants, which the source imports
    from pymongo.  The specification has them as the two values of the enum
    SortDirection; pymongo defines them as the integers 1 and -1. *)
Definition ASCENDING : pyval := PInt 1.
Definition DESCENDING : pyval := PInt (-1).

(** ** Python object protocol, as far as [_fix_sort_parameter] uses it *)

(** [obj[1]] *)
Definition getitem1 (obj : pyval) : result pyval :=
  match obj with
  | PList items =>
      match items !! 1%nat with
      | Some v => Ret v
      | None => Raise IndexError
      end
  | PStr s =>
      match String.get 1 s with
      | Some c => Ret (PStr (String c EmptyString))
      | None => Raise IndexError
      end
  | PDict _ => Raise (KeyError "1")
  | _ => Raise (TypeError "__getitem__")
  end.

(** [obj[1] = v]; a list is updated in place, here the updated list is
    returned.  Only lists get here: for every other value [getitem1] has
    raised, or has produced a one-character string that matches no
    direction. *)
Definition setitem1 (obj : pyval) (v : pyval) : result pyval :=
  match obj with
  | PList items =>
      if decide (1 < length items)%nat then Ret (PList (<[1%nat := v]> items))
      else Raise IndexError
  | _ => Raise (TypeError "__setitem__")
  end.

(** [obj.upper()] *)
Definition upper_method (obj : pyval) : result string :=
  match obj with
  | PStr s => Ret (upper s)
  | _ => Raise (AttributeError "upper")
  end.

(** [str(obj)] for the one place that formats a token; only strings reach
    it. *)
Definition str_of (obj : pyval) : string :=
  match obj with
  | PStr s => s
  | _ => ""
  end.

(** [for item in obj]: the items the loop visits. *)
Definition iter_items (obj : pyval) : result (list pyval) :=
  match obj with
  | PList items => Ret items
  | PStr s => Ret (map (fun c => PStr (String c EmptyString)) (list_ascii_of_string s))
  | PDict kvs => Ret (map (fun kv => PStr (fst kv)) kvs)
  | _ => Raise (TypeError "not iterable")
  end.

(** ** [_fix_sort_parameter] (lines 140-154) *)

Definition invalid_sort_msg (token : string) : string :=
  "Invalid Sort parameter [" +:+ token +:+
  "]. It must be either ASCENDING or DESCENDING".

(** The loop body, lines 144-152. *)
Definition fix_item (g : Globals) (item : pyval) : result pyval :=
  original_sort_order ← getitem1 item;
  sort_order ← upper_method original_sort_order;
  if decide (sort_order = "ASCENDING") then
    lookup_name g "ASCENDING";; setitem1 item ASCENDING
  else if decide (sort_order = "DESCENDING") then
    lookup_name g "DESCENDING";; setitem1 item DESCENDING
  else
    fail_json (invalid_sort_msg (str_of original_sort_order)).

(** The loop: items are visited in order, the first one that does not go
    through ends the call. *)
Fixpoint fix_items (g : Globals) (items : list pyval) : result (list pyval) :=
  match items with
  | [] => Ret []
  | item :: rest =>
      item' ← fix_item g item;
      rest' ← fix_items g rest;
      Ret (item' :: rest')
  end.

Definition _fix_sort_parameter (g : Globals) (sort_parameter : pyval)
  : result pyval :=
  match sort_parameter with
  | PNone => Ret PNone
  | PList items => items' ← fix_items g items; Ret (PList items')
  | other =>
      (* a non-list iterable: its items are fresh strings, assignments to
         them do not reach [sort_parameter] *)
      items ← iter_items other;
      fix_items g items;; Ret other
  end.

(** ** The host runtime and the driver

    Both are outside this repository.  The driver is a record of the calls
    the source makes; [main] is run against any such record.  What the calls
    raise is a [driver_exn]. *)

Record FindRequest : Type := {
  fr_database : pyval;
  fr_collection : pyval;
  fr_query : pyval;
  fr_projection : pyval;
  fr_skip : pyval;
  fr_limit : pyval;
  fr_sort : pyval
}.

Record Driver : Type := {
  (* MongoClient(connection_string) *)
  drv_connect : pyval -> option driver_exn;
  (* client[database][collection].find(...): builds the cursor *)
  drv_find : FindRequest -> option driver_exn;
  (* exhausting the cursor, which json_util.dumps does when it meets it *)
  drv_iterate : FindRequest -> driver_exn + list pyval;
  (* the text json_util.dumps produces for a value without cursors *)
  drv_encode : pyval -> string
}.

Inductive argtype : Type := TStr | TInt | TDict | TList.

Record World : Type := {
  installed : Installed;
  (* the conversion AnsibleModule applies to a supplied value of a declared
     type; [None] when it rejects the value *)
  host_check_type : argtype -> pyval -> option pyval;
  driver : Driver
}.

(** ** State: the driver calls made and the lines printed *)

Inductive event : Type :=
  | EvConnect (connection_string : pyval)
  | EvFind (req : FindRequest)
  | EvIterate (req : FindRequest).

Record State : Type := {
  trace : list event;
  stdout : list string
}.

Definition initial : State := {| trace := []; stdout := [] |}.

Definition M (A : Type) : Type := State -> result A * State.

#[global] Instance M_ret : MRet M := fun A a s => (Ret a, s).
#[global] Instance M_bind : MBind M := fun A B f m s =>
  match m s with
  | (Ret a, s') => f a s'
  | (Raise e, s') => (Raise e, s')
  | (FailJson msg, s') => (FailJson msg, s')
  end.

Definition lift {A} (r : result A) : M A := fun s => (r, s).

Definition emit (ev : event) : M unit := fun s =>
  (Ret tt, {| trace := trace s ++ [ev]; stdout := stdout s |}).

(** [print(line)] *)
Definition print (line : string) : M unit := fun s =>
  (Ret tt, {| trace := trace s; stdout := stdout s ++ [line] |}).

(** [sys.exit(code)] *)
Definition sys_exit {A} (code : Z) : M A := lift (Raise (SystemExit code)).

(** [try: body except ...: handler]: the handler sees every exception that
    leaves the body, SystemExit included. *)
Definition try_except {A} (body : M A) (handler : exn -> M A) : M A := fun s =>
  match body s with
  | (Raise e, s') => handler e s'
  | other => other
  end.

Definition of_driver (o : option driver_exn) : result unit :=
  match o with
  | None => Ret tt
  | Some e => Raise (DriverExn e)
  end.

Definition connect (w : World) (connection_string : pyval) : M unit :=
  emit (EvConnect connection_string);;
  lift (of_driver (drv_connect (driver w) connection_string)).

Definition find (w : World) (req : FindRequest) : M unit :=
  emit (EvFind req);;
  lift (of_driver (drv_find (driver w) req)).

Definition iterate (w : World) (req : FindRequest) : M (list pyval) :=
  emit (EvIterate req);;
  lift (match drv_iterate (driver w) req with
        | inl e => Raise (DriverExn e)
        | inr docs => Ret docs
        end).

(** What a dict literal may hold on line 194: plain values and the cursor. *)
Inductive pyobj : Type :=
  | Val (v : pyval)
  | Cursor (req : FindRequest).

(** Modelled from the spec: what [json_util.dumps] does with the dict of line
    194, [bson.json_util] being outside the sources.  Step 5 of section 4.1
    of the specification: a cursor is run to its end into an ordered
    sequence; the other entries are taken as they are; the converted dict is
    then encoded. *)
Fixpoint json_convert (w : World) (fields : list (string * pyobj))
  : M (list (string * pyval)) :=
  match fields with
  | [] => mret []
  | (k, Val v) :: rest =>
      rest' ← json_convert w rest; mret ((k, v) :: rest')
  | (k, Cursor req) :: rest =>
      docs ← iterate w req;
      rest' ← json_convert w rest; mret ((k, PList docs) :: rest')
  end.

Definition json_util_dumps (w : World) (fields : list (string * pyobj))
  : M string :=
  converted ← json_convert w fields;
  mret (drv_encode (driver w) (PDict converted)).

(** ** [AnsibleModule] (line 161)

    The class comes from [ansible.module_utils.basic], which is not part of
    the sources; what the source contributes is the [argument_spec] it
    passes.  The conversion of a supplied value to its declared type is
    [host_check_type] of the world. *)

Record ArgSpec : Type := {
  arg_required : bool;
  arg_aliases : list string;
  arg_type : option argtype;
  arg_default : pyval;
  arg_no_log : bool
}.

(** The [argument_spec] of lines 162-171. *)
Definition argument_spec : list (string * ArgSpec) :=
  [ ("connection_string",
      {| arg_required := false; arg_aliases := []; arg_type := None;
         arg_default := PStr "mongodb://localhost/"; arg_no_log := true |});
    ("database",
      {| arg_required := true; arg_aliases := ["db"]; arg_type := None;
         arg_default := PNone; arg_no_log := false |});
    ("collection",
      {| arg_required := true; arg_aliases := []; arg_type := None;
         arg_default := PNone; arg_no_log := false |});
    ("query",
      {| arg_required := false; arg_aliases := []; arg_type := Some TDict;
         arg_default := PDict []; arg_no_log := false |});
    ("projection",
      {| arg_required := false; arg_aliases := []; arg_type := Some TDict;
         arg_default := PNone; arg_no_log := false |});
    ("skip",
      {| arg_required := false; arg_aliases := []; arg_type := Some TInt;
         arg_default := PStr "0"; arg_no_log := false |});
    ("limit",
      {| arg_required := false; arg_aliases := []; arg_type := Some TInt;
         arg_default := PStr "0"; arg_no_log := false |});
    ("sort",
      {| arg_required := false; arg_aliases := []; arg_type := Some TList;
         arg_default := PNone; arg_no_log := false |}) ].

Definition is_none (v : pyval) : bool :=
  match v with PNone => true | _ => false end.

Definition has_key (params : gmap string pyval) (k : string) : bool :=
  match params !! k with Some _ => true | None => false end.

Definition handle_aliases (spec : list (string * ArgSpec))
    (params : gmap string pyval) : gmap string pyval :=
  foldl (fun ps kv =>
           foldl (fun ps alias =>
                    match ps !! alias with
                    | Some x => <[fst kv := x]> ps
                    | None => ps
                    end) ps (arg_aliases (snd kv)))
        params spec.

Definition legal_inputs (spec : list (string * ArgSpec)) : list string :=
  flat_map (fun kv => fst kv :: arg_aliases (snd kv)) spec.

Definition check_arguments (spec : list (string * ArgSpec))
    (params : gmap string pyval) : result unit :=
  match filter (fun k => k ∉ legal_inputs spec) (map fst (map_to_list params)) with
  | [] => Ret tt
  | k :: _ => fail_json ("unsupported parameter for module: " +:+ k)
  end.

(** [_set_defaults(pre)]: before the checks only defaults other than [None]
    are filled in, after them everything still absent. *)
Definition set_defaults (pre : bool) (spec : list (string * ArgSpec))
    (params : gmap string pyval) : gmap string pyval :=
  foldl (fun ps kv =>
           if has_key ps (fst kv) then ps
           else if pre && is_none (arg_default (snd kv)) then ps
           else <[fst kv := arg_default (snd kv)]> ps)
        params spec.

Definition missing_arguments (spec : list (string * ArgSpec))
    (params : gmap string pyval) : list string :=
  map fst (List.filter (fun kv => arg_required (snd kv) && negb (has_key params (fst kv)))
                       spec).

Definition missing_required_msg (missing : list string) : string :=
  "missing required arguments: " +:+ String.concat "," missing.

Definition check_required_arguments (spec : list (string * ArgSpec))
    (params : gmap string pyval) : result unit :=
  match missing_arguments spec params with
  | [] => Ret tt
  | missing => fail_json (missing_required_msg missing)
  end.

Fixpoint check_argument_types (w : World) (spec : list (string * ArgSpec))
    (params : gmap string pyval) : result (gmap string pyval) :=
  match spec with
  | [] => Ret params
  | (k, v) :: rest =>
      match params !! k with
      | None | Some PNone => check_argument_types w rest params
      | Some value =>
          match host_check_type w (default TStr (arg_type v)) value with
          | Some value' => check_argument_types w rest (<[k := value']> params)
          | None => fail_json ("argument " +:+ k +:+ " could not be converted")
          end
      end
  end.

(** Modelled from the spec: the constructor of [AnsibleModule], missing from
    the sources.  Section 6 of the specification lists the parameters with
    their required flag, alias and default, which is the [argument_spec] of
    the source.  The steps and their order are those of the constructor in
    Ansible 2.2, the release the module was written for: aliases are
    resolved, parameters outside the specification are refused, defaults
    other than [None] are filled in, required parameters are checked for
    presence (any supplied value counts, the empty string too), supplied
    values are converted to the declared type, and what is still absent is
    set to its default or [None]. *)
Definition AnsibleModule (w : World) (spec : list (string * ArgSpec))
    (args : gmap string pyval) : result (gmap string pyval) :=
  let params := handle_aliases spec args in
  check_arguments spec params;;
  let params := set_defaults true spec params in
  check_required_arguments spec params;;
  params ← check_argument_types w spec params;
  Ret (set_defaults false spec params).

(** [module.params[k]] *)
Definition param (params : gmap string pyval) (k : string) : result pyval :=
  match params !! k with
  | Some v => Ret v
  | None => Raise (KeyError k)
  end.

(** ** [main] (lines 160-199) *)

(** The body of the [try], lines 188-196. *)
Definition query_block (w : World) (g : Globals)
    (connection_string : pyval) (req : FindRequest) : M unit :=
  lift (lookup_name g "MongoClient");;
  connect w connection_string;;
  find w req;;
  let result_json := [("changed", Val (PBool false)); ("result", Cursor req)] in
  lift (lookup_name g "json_util");;
  text ← json_util_dumps w result_json;
  print text;;
  sys_exit 0.

(** The [except ConnectionFailure, e] clause, lines 198-199: the class name
    is looked up when an exception arrives, then the exception is matched
    against it. *)
Definition connection_failure_handler (g : Globals) (e : exn) : M unit :=
  lift (lookup_name g "ConnectionFailure");;
  match e with
  | DriverExn (ConnectionFailure m) =>
      lift (fail_json ("unable to connect to database: " +:+ m))
  | _ => lift (Raise e)
  end.

Definition main (w : World) (args : gmap string pyval) : M unit :=
  let g := import_block (installed w) in
  params ← lift (AnsibleModule w argument_spec args);
  (if pymongo_found g then mret tt
   else lift (fail_json "the python pymongo module is required"));;
  connection_string ← lift (param params "connection_string");
  database ← lift (param params "database");
  collection ← lift (param params "collection");
  query ← lift (param params "query");
  projection ← lift (param params "projection");
  skip ← lift (param params "skip");
  limit ← lift (param params "limit");
  sort ← lift (sort_parameter ← param params "sort";
               _fix_sort_parameter g sort_parameter);
  try_except
    (query_block w g connection_string
       {| fr_database := database; fr_collection := collection;
          fr_query := query; fr_projection := projection;
          fr_skip := skip; fr_limit := limit; fr_sort := sort |})
    (connection_failure_handler g).

(** The exit status the operating system sees. *)
Definition exit_code (r : result unit) : Z :=
  match r with
  | Ret _ => 0
  | Raise (SystemExit code) => code
  | Raise _ => 1
  | FailJson _ => 1
  end.

(** ** Hosts, conversions and drivers used in the examples *)

(** Everything importable: a current pymongo. *)
Definition modern : Installed :=
  {| bson_json_util := true; pymongo_sort_constants := true;
     pymongo_ConnectionFailure := true; pymongo_OperationFailure := true;
     pymongo_version := true; pymongo_MongoClient := true;
     pymongo_Connection := false |}.

(** PyMongo 2.2, the case the fallback is written for: no [MongoClient]
    yet, [Connection] instead. *)
Definition pymongo_2_2 : Installed :=
  {| bson_json_util := true; pymongo_sort_constants := true;
     pymongo_ConnectionFailure := true; pymongo_OperationFailure := true;
     pymongo_version := true; pymongo_MongoClient := false;
     pymongo_Connection := true |}.

(** The first import fails, the fallback import works. *)
Definition bson_missing : Installed :=
  {| bson_json_util := false; pymongo_sort_constants := true;
     pymongo_ConnectionFailure := true; pymongo_OperationFailure := true;
     pymongo_version := true; pymongo_MongoClient := true;
     pymongo_Connection := true |}.

(** No driver at all. *)
Definition no_driver : Installed :=
  {| bson_json_util := false; pymongo_sort_constants := false;
     pymongo_ConnectionFailure := false; pymongo_OperationFailure := false;
     pymongo_version := false; pymongo_MongoClient := false;
     pymongo_Connection := false |}.

Definition digit_value (c : ascii) : option Z :=
  let n := nat_of_ascii c in
  if ((48 <=? n) && (n <=? 57))%nat then Some (Z.of_nat (n - 48)) else None.

Fixpoint int_of_digits (acc : Z) (s : string) : option Z :=
  match s with
  | EmptyString => Some acc
  | String c s' =>
      match digit_value c with
      | Some d => int_of_digits (10 * acc + d) s'
      | None => None
      end
  end.

(** A conversion for the examples: a value already of the declared type
    passes, and a non-empty string of decimal digits is read as an integer. *)
Definition check_type_basic (t : argtype) (v : pyval) : option pyval :=
  match t, v with
  | TStr, PStr _ | TInt, PInt _ | TDict, PDict _ | TList, PList _ => Some v
  | TInt, PStr (String c s) => PInt <$> int_of_digits 0 (String c s)
  | _, _ => None
  end.

(** An encoder for the examples: the keys of the outer dict. *)
Definition keys_only (v : pyval) : string :=
  match v with
  | PDict kvs => String.concat "," (map fst kvs)
  | _ => ""
  end.

(** A driver that reaches a server holding [docs] and returns them all. *)
Definition serving (docs : list pyval) : Driver :=
  {| drv_connect := fun _ => None;
     drv_find := fun _ => None;
     drv_iterate := fun _ => inr docs;
     drv_encode := keys_only |}.

(** A driver whose server cannot be reached: the failure arrives when the
    cursor is run. *)
Definition unreachable (msg : string) : Driver :=
  {| drv_connect := fun _ => None;
     drv_find := fun _ => None;
     drv_iterate := fun _ => inl (ConnectionFailure msg);
     drv_encode := keys_only |}.

(** A driver whose server refuses the query. *)
Definition refusing (msg : string) : Driver :=
  {| drv_connect := fun _ => None;
     drv_find := fun _ => None;
     drv_iterate := fun _ => inl (OperationFailure msg);
     drv_encode := keys_only |}.

Definition world (h : Installed) (d : Driver) : World :=
  {| installed := h; host_check_type := check_type_basic; driver := d |}.

(** The parameters of a task, as a map. *)
Definition task (kvs : list (string * pyval)) : gmap string pyval :=
  list_to_map kvs.

(** ** Sort specifications as the specification describes them *)

(** A token names a direction when it equals one of the two labels up to
    case. *)
Definition valid_direction (token : string) : Prop :=
  eq_nocase token "ASCENDING" \/ eq_nocase token "DESCENDING".

#[global] Instance valid_direction_dec token : Decision (valid_direction token).
Proof. unfold valid_direction. apply _. Defined.

(** The enum value that corresponds to a token. *)
Definition direction_value (token : string) : pyval :=
  if decide (eq_nocase token "ASCENDING") then ASCENDING else DESCENDING.

(** A [(fieldName, directionToken)] pair as the Python list the module
    receives, and the pair after normalisation. *)
Definition pair_item (p : pyval * string) : pyval := PList [fst p; PStr (snd p)].
Definition normalised_pair (p : pyval * string) : pyval :=
  PList [fst p; direction_value (snd p)].

(** The field names of a sequence of two-element lists, in order. *)
Definition field_names (items : list pyval) : list (option pyval) :=
  map (fun item => match item with PList l => l !! 0%nat | _ => None end) items.

Definition sort_constants_bound (g : Globals) : Prop :=
  "ASCENDING" ∈ bound g /\ "DESCENDING" ∈ bound g.

Definition non_string (v : pyval) : Prop := forall s, v <> PStr s.

(** A pair whose direction token is not a string. *)
Definition has_non_string_token (item : pyval) : Prop :=
  exists fields token,
    item = PList fields /\ fields !! 1%nat = Some token /\ non_string token.

(** The pairs the loop gets past. *)
Definition normalises (g : Globals) (item : pyval) : Prop :=
  exists item', fix_item g item = Ret item'.

(** ** What [main] reads and what it leaves behind *)

(** The value [AnsibleModule] left for a declared parameter. *)
Definition the (params : gmap string pyval) (k : string) : pyval :=
  default PNone (params !! k).

(** The request line 189 builds from the parameters and the normalised sort
    specification. *)
Definition request_of (params : gmap string pyval) (sort : pyval) : FindRequest :=
  {| fr_database := the params "database";
     fr_collection := the params "collection";
     fr_query := the params "query";
     fr_projection := the params "projection";
     fr_skip := the params "skip";
     fr_limit := the params "limit";
     fr_sort := sort |}.

(** The envelope of line 194 once the cursor has been run into a list. *)
Definition envelope (docs : list pyval) : pyval :=
  PDict [("changed", PBool false); ("result", PList docs)].

(** The names the query block and its handler read. *)
Definition query_names_bound (g : Globals) : Prop :=
  "MongoClient" ∈ bound g /\ "json_util" ∈ bound g /\ "ConnectionFailure" ∈ bound g.

(** The driver call that fails, and with what. *)
Inductive fails_with (w : World) (cs : pyval) (req : FindRequest) (e : driver_exn)
  : list event -> Prop :=
  | fails_connecting :
      drv_connect (driver w) cs = Some e ->
      fails_with w cs req e [EvConnect cs]
  | fails_finding :
      drv_connect (driver w) cs = None -> drv_find (driver w) req = Some e ->
      fails_with w cs req e [EvConnect cs; EvFind req]
  | fails_iterating :
      drv_connect (driver w) cs = None -> drv_find (driver w) req = None ->
      drv_iterate (driver w) req = inl e ->
      fails_with w cs req e [EvConnect cs; EvFind req; EvIterate req].

Definition is_exit (e : exn) : bool :=
  match e with SystemExit _ => true | _ => false end.

(** Whether a call came back with a value. *)
Definition returns {A} (r : result A) : bool :=
  match r with Ret _ => true | _ => false end.

(** The module's parameters in the examples: what [AnsibleModule] returns
    for a task, the empty map when it refuses the task. *)
Definition params_of (w : World) (args : gmap string pyval) : gmap string pyval :=
  match AnsibleModule w argument_spec args with
  | Ret params => params
  | _ => ∅
  end.

(** ** The find operation

    pymongo's [Collection.find] and the server behind it are not part of
    the sources; the source only hands them the five parameters. *)

(** How a server matches, projects and orders documents is left open. *)
Record Server : Type := {
  srv_documents : pyval -> pyval -> list pyval;
  srv_matches : pyval -> pyval -> bool;
  srv_project : pyval -> pyval -> pyval;
  srv_order : pyval -> list pyval -> list pyval
}.

Definition matching_set (sv : Server) (req : FindRequest) : list pyval :=
  List.filter (srv_matches sv (fr_query req))
              (srv_documents sv (fr_database req) (fr_collection req)).

(** Modelled from the spec: what a find returns, missing from the sources.
    After section 4.1 of the specification: the documents of the collection
    that match the filter, in the order the sort specification asks for
    (storage order without one), without the first [skip] of them, cut to
    [limit] documents unless [limit] is 0, each reduced by the projection
    (whole without one).  [skip] and [limit] are non-negative integers. *)
Definition spec_find (sv : Server) (req : FindRequest) : driver_exn + list pyval :=
  match fr_skip req, fr_limit req with
  | PInt skip, PInt limit =>
      if (0 <=? skip) && (0 <=? limit) then
        let ordered :=
          match fr_sort req with
          | PNone => matching_set sv req
          | sort => srv_order sv sort (matching_set sv req)
          end in
        let skipped := drop (Z.to_nat skip) ordered in
        let limited := if limit =? 0 then skipped else take (Z.to_nat limit) skipped in
        inr (match fr_projection req with
             | PNone => limited
             | projection => map (srv_project sv projection) limited
             end)
      else inl (DriverError "skip and limit must be non-negative")
  | _, _ => inl (DriverError "skip and limit must be integers")
  end.

Definition modelled_driver (sv : Server) (encode : pyval -> string) : Driver :=
  {| drv_connect := fun _ => None;
     drv_find := fun _ => None;
     drv_iterate := spec_find sv;
     drv_encode := encode |}.

(** ** The extended JSON encoding

    [bson.json_util] is not part of the sources, which only call its
    [dumps].  Encoder and decoder work on JSON trees; the text layer of JSON
    is not modelled. *)

Inductive json : Type :=
  | JNull
  | JBool (b : bool)
  | JNum (n : Z)
  | JStr (s : string)
  | JArr (items : list json)
  | JObj (members : list (string * json)).

(** Modelled from the spec: the extended encoder, missing from the sources.
    It is the tagged-value encoding section 9 of the specification asks
    for: an object identifier becomes the object with the single member
    [$oid], a date the object with the single member [$date], every other
    value its JSON counterpart. *)
Fixpoint ext_encode (v : pyval) : json :=
  match v with
  | PNone => JNull
  | PBool b => JBool b
  | PInt n => JNum n
  | PStr s => JStr s
  | PList items => JArr (map ext_encode items)
  | PDict kvs => JObj (map (fun '(k, v') => (k, ext_encode v')) kvs)
  | PObjectId hex => JObj [("$oid", JStr hex)]
  | PDatetime millis => JObj [("$date", JNum millis)]
  end.

Definition tagged (members : list (string * json)) : option pyval :=
  match members with
  | [(k, JStr hex)] => if decide (k = "$oid") then Some (PObjectId hex) else None
  | [(k, JNum millis)] => if decide (k = "$date") then Some (PDatetime millis) else None
  | _ => None
  end.

(** Modelled from the spec: the extended decoder, missing from the sources.
    It turns the two tagged objects back into the scalars they stand for. *)
Fixpoint ext_decode (j : json) : pyval :=
  match j with
  | JNull => PNone
  | JBool b => PBool b
  | JNum n => PInt n
  | JStr s => PStr s
  | JArr items => PList (map ext_decode items)
  | JObj members =>
      match tagged members with
      | Some v => v
      | None => PDict (map (fun '(k, j') => (k, ext_decode j')) members)
      end
  end.

(** Field names a database stores do not begin with a dollar sign, which is
    what keeps a stored document apart from a tagged scalar. *)
Definition is_tag (k : string) : bool :=
  match k with
  | String "$" _ => true
  | _ => false
  end.

Fixpoint storable (v : pyval) : bool :=
  match v with
  | PList items => forallb storable items
  | PDict kvs => forallb (fun '(k, v') => negb (is_tag k) && storable v') kvs
  | _ => true
  end.

(** Induction over values that goes through lists and dicts. *)
Section pyval_induction.
Variable P : pyval -> Prop.
Hypothesis HNone : P PNone.
Hypothesis HBool : forall b, P (PBool b).
Hypothesis HInt : forall n, P (PInt n).
Hypothesis HStr : forall s, P (PStr s).
Hypothesis HList : forall items, Forall P items -> P (PList items).
Hypothesis HDict : forall kvs, Forall (fun kv => P (snd kv)) kvs -> P (PDict kvs).
Hypothesis HObjectId : forall hex, P (PObjectId hex).
Hypothesis HDatetime : forall millis, P (PDatetime millis).
Fixpoint pyval_nested_ind (v : pyval) : P v :=
  match v with
  | PNone => HNone
  | PBool b => HBool b
  | PInt n => HInt n
  | PStr s => HStr s
  | PList items =>
      HList items
        ((fix go (l : list pyval) : Forall P l :=
            match l return Forall P l with
            | [] => @List.Forall_nil _ P
            | x :: l' => @List.Forall_cons _ P x l' (pyval_nested_ind x) (go l')
            end) items)
  | PDict kvs =>
      HDict kvs
        ((fix go (l : list (string * pyval)) : Forall (fun kv => P (snd kv)) l :=
            match l return Forall (fun kv => P (snd kv)) l with
            | [] => @List.Forall_nil _ _
            | kv :: l' =>
                @List.Forall_cons _ (fun kv => P (snd kv)) kv l'
                  (match kv return P (snd kv) with (k, x) => pyval_nested_ind x end)
                  (go l')
            end) kvs)
  | PObjectId hex => HObjectId hex
  | PDatetime millis => HDatetime millis
  end.
End pyval_induction.

(** ** Further hosts, servers and tasks used in the examples *)

(** A driver that, like pymongo, refuses an empty database or collection
    name when the collection object is built. *)
Definition checking_names (docs : list pyval) : Driver :=
  {| drv_connect := fun _ => None;
     drv_find := fun req =>
       match fr_database req, fr_collection req with
       | PStr "", _ => Some (DriverError "database name cannot be the empty string")
       | _, PStr "" => Some (DriverError "collection names cannot be empty")
       | _, _ => None
       end;
     drv_iterate := fun _ => inr docs;
     drv_encode := keys_only |}.

(** A server for the examples: one collection, a filter of string fields
    that must all be present and equal, no reordering, no projection. *)
Definition field_of (doc : pyval) (k : string) : option pyval :=
  match doc with
  | PDict kvs => snd <$> List.find (fun kv => String.eqb (fst kv) k) kvs
  | _ => None
  end.

Definition matches_strings (filter doc : pyval) : bool :=
  match filter with
  | PDict conditions =>
      forallb (fun c => match snd c, field_of doc (fst c) with
                        | PStr a, Some (PStr b) => String.eqb a b
                        | _, _ => false
                        end) conditions
  | _ => false
  end.

Definition holding (docs : list pyval) : Server :=
  {| srv_documents := fun _ _ => docs;
     srv_matches := matches_strings;
     srv_project := fun _ doc => doc;
     srv_order := fun _ docs => docs |}.

Definition five_hosts : list pyval :=
  [PDict [("hostname", PStr "batman"); ("pid", PInt 101)];
   PDict [("hostname", PStr "robin"); ("pid", PInt 102)];
   PDict [("hostname", PStr "batman"); ("pid", PInt 103)];
   PDict [("hostname", PStr "batman"); ("pid", PInt 104)];
   PDict [("hostname", PStr "alfred"); ("pid", PInt 105)]].

(** A server holding one start-up record. *)
Definition one_record : list pyval :=
  [PDict [("_id", PObjectId "56d6e1b2a1b2c3d4e5f60718");
          ("hostname", PStr "batman"); ("startTime", PDatetime 1456923058000)]].

(** The query of the examples. *)
Definition startup_log_task : gmap string pyval :=
  task [("db", PStr "local"); ("collection", PStr "startup_log");
        ("query", PDict [("hostname", PStr "batman")])].

Definition startup_log_request : FindRequest :=
  {| fr_database := PStr "local"; fr_collection := PStr "startup_log";
     fr_query := PDict [("hostname", PStr "batman")]; fr_projection := PNone;
     fr_skip := PInt 0; fr_limit := PInt 0; fr_sort := PNone |}.

(** Sort by name, then by an unknown direction. *)
Definition task_with_unknown_direction : gmap string pyval :=
  task [("db", PStr "accounts"); ("collection", PStr "software");
        ("sort", PList [PList [PStr "name"; PStr "ASCENDING"];
                        PList [PStr "version"; PStr "newest"]])].

(** A task that sorts. *)
Definition sorted_task : gmap string pyval :=
  task [("db", PStr "accounts"); ("collection", PStr "software");
        ("sort", PList [PList [PStr "name"; PStr "ASCENDING"]])].

(** A specification whose first pair has an unknown direction string and
    whose second pair has the integer 1 as its token. *)
Definition unknown_then_integer : list pyval :=
  [PList [PStr "a"; PStr "bogus"]; PList [PStr "b"; PInt 1]].

(** ** Sentences of the claims that the code does not bear out as stated *)

(** The sentence of C9 read for every specification, whatever comes before
    the pair. *)
Definition attribute_error_wherever_the_pair_is : Prop :=
  forall (g : Globals) (items : list pyval),
    Exists has_non_string_token items ->
    _fix_sort_parameter g (PList items) = Raise (AttributeError "upper").

(** The sentence of C6: with the driver missing, the failure is the
    dependency failure whatever the parameters are. *)
Definition dependency_failure_whatever_the_parameters : Prop :=
  forall (w : World) (args : gmap string pyval) (s : State),
    pymongo_found (import_block (installed w)) = false ->
    main w args s = (FailJson "the python pymongo module is required", s).

(** The sentence of C5 for an empty name. *)
Definition empty_name_fails_before_connecting : Prop :=
  forall (w : World) (args : gmap string pyval) (s : State),
    args !! "database" = Some (PStr "") \/ args !! "collection" = Some (PStr "") ->
    exists msg, main w args s = (FailJson msg, s).

(** The fallback is taken: an import of the [try] body failed and
    [Connection] could be imported. *)
Definition fallback_taken (h : Installed) : Prop :=
  snd (run_imports (import_statements h) ∅) = false /\ pymongo_Connection h = true.

(** The sentence of C10 about the names: whenever the fallback is taken,
    the flag is set and the sort constants, the serializer and the
    exception class are unbound. *)
Definition fallback_leaves_driver_names_unbound : Prop :=
  forall h : Installed, fallback_taken h ->
    pymongo_found (import_block h) = true /\
    Forall (fun name => name ∉ bound (import_block h))
           ["ASCENDING"; "DESCENDING"; "json_util"; "ConnectionFailure"].

(** ** Ways [main] ends *)

Definition is_name_error (e : exn) : bool :=
  match e with NameError _ => true | _ => false end.

(** The ends of [main] before the [try] of line 187 is entered. *)
Inductive stops_early (w : World) (args : gmap string pyval) : result unit -> Prop :=
  | stops_in_validation (msg : string) :
      AnsibleModule w argument_spec args = FailJson msg ->
      stops_early w args (FailJson msg)
  | stops_without_driver (params : gmap string pyval) :
      AnsibleModule w argument_spec args = Ret params ->
      pymongo_found (import_block (installed w)) = false ->
      stops_early w args (FailJson "the python pymongo module is required")
  | stops_in_sort_failure (params : gmap string pyval) (msg : string) :
      AnsibleModule w argument_spec args = Ret params ->
      pymongo_found (import_block (installed w)) = true ->
      _fix_sort_parameter (import_block (installed w)) (the params "sort")
        = FailJson msg ->
      stops_early w args (FailJson msg)
  | stops_in_sort_exception (params : gmap string pyval) (e : exn) :
      AnsibleModule w argument_spec args = Ret params ->
      pymongo_found (import_block (installed w)) = true ->
      _fix_sort_parameter (import_block (installed w)) (the params "sort")
        = Raise e ->
      stops_early w args (Raise e).

(** A sort item after normalisation: the list it was, with the direction
    string at index 1 replaced by the value of the direction. *)
Definition normalised_from (item item' : pyval) : Prop :=
  exists fields token,
    item = PList fields /\ fields !! 1%nat = Some (PStr token) /\
    valid_direction token /\
    item' = PList (<[1%nat := direction_value token]> fields).

(** A host on which the second import of the [try] body fails and the
    fallback import works: [json_util] is bound, [ConnectionFailure] is
    not. *)
Definition constants_missing : Installed :=
  {| bson_json_util := true; pymongo_sort_constants := false;
     pymongo_ConnectionFailure := true; pymongo_OperationFailure := true;
     pymongo_version := true; pymongo_MongoClient := true;
     pymongo_Connection := true |}.

(** A driver that cannot connect at all. *)
Definition refusing_connections (msg : string) : Driver :=
  {| drv_connect := fun _ => Some (ConnectionFailure msg);
     drv_find := fun _ => None;
     drv_iterate := fun _ => inr [];
     drv_encode := keys_only |}.

(** The exceptions sort normalisation can raise under globals [g]: a
    NameError only for a sort constant that is not bound, otherwise the
    errors of indexing, of [upper] and of item assignment. *)
Definition sort_exception (g : Globals) (e : exn) : Prop :=
  match e with
  | NameError name =>
      (name = "ASCENDING" \/ name = "DESCENDING") /\ name ∉ bound g
  | AttributeError _ | TypeError _ | IndexError | KeyError _ => True
  | SystemExit _ | DriverExn _ => False
  end.

(** The three driver calls of a run, in the order of lines 188-195. *)
Definition driver_calls (cs : pyval) (req : FindRequest) : list event :=
  [EvConnect cs; EvFind req; EvIterate req].

(** * Properties *)

(** ** Case folding *)

Lemma ascii_upper_lower (c : ascii) : ascii_upper (ascii_lower c) = ascii_upper c.
Proof. destruct c as [[] [] [] [] [] [] [] []]; reflexivity. Qed.

Lemma ascii_lower_upper (c : ascii) : ascii_lower (ascii_upper c) = ascii_lower c.
Proof. destruct c as [[] [] [] [] [] [] [] []]; reflexivity. Qed.

Lemma upper_lower (s : string) : upper (lower s) = upper s.
Proof. induction s as [|c s IH]; simpl; [done|]. by rewrite ascii_upper_lower, IH. Qed.

Lemma lower_upper (s : string) : lower (upper s) = lower s.
Proof. induction s as [|c s IH]; simpl; [done|]. by rewrite ascii_lower_upper, IH. Qed.

(** What the source tests, [s.upper() == t.upper()], is the specification's
    case-insensitive equality. *)
Lemma upper_eq_iff_nocase (s t : string) : upper s = upper t <-> eq_nocase s t.
Proof.
  unfold eq_nocase. split; intros H.
  - rewrite <- (lower_upper s), <- (lower_upper t). by rewrite H.
  - rewrite <- (upper_lower s), <- (upper_lower t). by rewrite H.
Qed.

Lemma upper_is_ascending (s : string) :
  upper s = "ASCENDING" <-> eq_nocase s "ASCENDING".
Proof. apply (upper_eq_iff_nocase s "ASCENDING"). Qed.

Lemma upper_is_descending (s : string) :
  upper s = "DESCENDING" <-> eq_nocase s "DESCENDING".
Proof. apply (upper_eq_iff_nocase s "DESCENDING"). Qed.

Lemma eq_nocase_trans (s t u : string) :
  eq_nocase s t -> eq_nocase t u -> eq_nocase s u.
Proof. unfold eq_nocase. congruence. Qed.

Lemma eq_nocase_sym (s t : string) : eq_nocase s t -> eq_nocase t s.
Proof. unfold eq_nocase. congruence. Qed.

Lemma not_both_directions (s : string) :
  eq_nocase s "ASCENDING" -> eq_nocase s "DESCENDING" -> False.
Proof. unfold eq_nocase. intros H1 H2. rewrite H1 in H2. discriminate. Qed.

(** ** The loop body *)

Lemma lookup_name_bound (g : Globals) (name : string) :
  name ∈ bound g -> lookup_name g name = Ret tt.
Proof. intros H. unfold lookup_name. by rewrite decide_True. Qed.

Lemma lookup_name_unbound (g : Globals) (name : string) :
  name ∉ bound g -> lookup_name g name = Raise (NameError name).
Proof. intros H. unfold lookup_name. by rewrite decide_False. Qed.

Lemma fix_item_valid (g : Globals) (p : pyval * string) :
  sort_constants_bound g -> valid_direction (snd p) ->
  fix_item g (pair_item p) = Ret (normalised_pair p).
Proof.
  intros [Ha Hd] Hv. destruct p as [f tok]. simpl in Hv.
  unfold fix_item, pair_item, normalised_pair, direction_value. simpl.
  destruct (decide (upper tok = "ASCENDING")) as [Hu|Hu].
  - apply upper_is_ascending in Hu. rewrite (decide_True _ _ Hu).
    by rewrite (lookup_name_bound _ _ Ha).
  - assert (Hn : ~ eq_nocase tok "ASCENDING") by (by rewrite <- upper_is_ascending).
    rewrite (decide_False _ _ Hn).
    destruct Hv as [Hv|Hv]; [done|].
    apply upper_is_descending in Hv. rewrite (decide_True _ _ Hv).
    by rewrite (lookup_name_bound _ _ Hd).
Qed.

Lemma fix_item_invalid (g : Globals) (p : pyval * string) :
  ~ valid_direction (snd p) ->
  fix_item g (pair_item p) = FailJson (invalid_sort_msg (snd p)).
Proof.
  intros Hv. destruct p as [f tok]. simpl in Hv.
  unfold fix_item, pair_item. simpl.
  rewrite decide_False, decide_False; [done| |].
  - rewrite upper_is_descending. unfold valid_direction in Hv. tauto.
  - rewrite upper_is_ascending. unfold valid_direction in Hv. tauto.
Qed.

(** A token that is not a string has no [upper]: the body raises before it
    compares anything. *)
Lemma fix_item_non_string (g : Globals) (fields : list pyval) (token : pyval) :
  fields !! 1%nat = Some token -> (forall s, token <> PStr s) ->
  fix_item g (PList fields) = Raise (AttributeError "upper").
Proof.
  intros Hl Hns. unfold fix_item. simpl. rewrite Hl. simpl.
  destruct token; try reflexivity. by destruct (Hns s).
Qed.

(** ** The loop *)

Lemma fix_items_app_ret (g : Globals) (pre rest pre' : list pyval) :
  fix_items g pre = Ret pre' ->
  fix_items g (pre ++ rest) = (rest' ← fix_items g rest; Ret (pre' ++ rest')).
Proof.
  revert pre'. induction pre as [|item pre IH]; intros pre' H; simpl in *.
  - injection H as <-. by destruct (fix_items g rest).
  - destruct (fix_item g item) as [item'| |]; simpl in *; try discriminate.
    destruct (fix_items g pre) as [pre0| |]; simpl in *; try discriminate.
    injection H as <-. rewrite (IH pre0 eq_refl).
    by destruct (fix_items g rest).
Qed.

Lemma fix_items_valid (g : Globals) (pairs : list (pyval * string)) :
  sort_constants_bound g -> Forall (fun p => valid_direction (snd p)) pairs ->
  fix_items g (map pair_item pairs) = Ret (map normalised_pair pairs).
Proof.
  intros Hg Hall. induction Hall as [|p pairs Hp _ IH]; simpl; [done|].
  by rewrite (fix_item_valid g p Hg Hp), IH.
Qed.

(** The first token that names no direction ends the loop with the
    structured failure that quotes it. *)
Lemma fix_items_first_invalid (g : Globals) (pre post : list (pyval * string))
    (p : pyval * string) :
  sort_constants_bound g ->
  Forall (fun p => valid_direction (snd p)) pre -> ~ valid_direction (snd p) ->
  fix_items g (map pair_item (pre ++ p :: post)) = FailJson (invalid_sort_msg (snd p)).
Proof.
  intros Hg Hpre Hp. rewrite map_app.
  rewrite (fix_items_app_ret g _ _ _ (fix_items_valid g pre Hg Hpre)).
  simpl. by rewrite (fix_item_invalid g p Hp).
Qed.

(** A list with a token that names no direction splits at the first one. *)
Lemma first_invalid_split (pairs : list (pyval * string)) :
  Exists (fun p => ~ valid_direction (snd p)) pairs ->
  exists pre p post, pairs = pre ++ p :: post /\
    Forall (fun p => valid_direction (snd p)) pre /\ ~ valid_direction (snd p).
Proof.
  induction pairs as [|q pairs IH]; intros Hex; [by inversion Hex|].
  destruct (decide (valid_direction (snd q))) as [Hq|Hq].
  - inversion Hex as [? ? Hbad|? ? Hrest]; subst; [done|].
    destruct (IH Hrest) as (pre & p & post & -> & Hpre & Hp).
    exists (q :: pre), p, post. split; [done|]. split; [by constructor|done].
  - exists [], q, pairs. split; [done|]. split; [constructor|done].
Qed.

(** ** Normalisation of well-formed specifications *)

(** C1. An absent sort specification is returned as it is.  For a sequence
    of (fieldName, directionToken) pairs whose tokens all name a direction
    up to case, [_fix_sort_parameter] returns the same sequence with every
    token replaced by the enum value of its direction: the fields stay where
    they were, in the order given, and two tokens that differ only in case
    are replaced by the same value. *)
Theorem normalize_sort_replaces_tokens (g : Globals) (pairs : list (pyval * string)) :
  sort_constants_bound g ->
  Forall (fun p => valid_direction (snd p)) pairs ->
  _fix_sort_parameter g PNone = Ret PNone /\
  _fix_sort_parameter g (PList (map pair_item pairs))
    = Ret (PList (map normalised_pair pairs)) /\
  field_names (map normalised_pair pairs) = map (fun p => Some (fst p)) pairs /\
  (forall f t t', valid_direction t -> eq_nocase t t' ->
     fix_item g (pair_item (f, t)) = fix_item g (pair_item (f, t')) /\
     fix_item g (pair_item (f, t)) = Ret (PList [f; direction_value t])).
Proof.
  intros Hg Hall. split; [reflexivity|]. split; [|split].
  - simpl. by rewrite (fix_items_valid g pairs Hg Hall).
  - unfold field_names. rewrite map_map. by apply map_ext.
  - intros f t t' Hv Heq.
    assert (Hv' : valid_direction t').
    { destruct Hv as [H|H]; [left|right];
        apply (eq_nocase_trans _ t); auto using eq_nocase_sym. }
    rewrite (fix_item_valid g (f, t) Hg Hv), (fix_item_valid g (f, t') Hg Hv').
    split; [|done]. unfold normalised_pair, direction_value. simpl.
    destruct (decide (eq_nocase t "ASCENDING")) as [Ha|Ha];
      destruct (decide (eq_nocase t' "ASCENDING")) as [Ha'|Ha']; try done.
    + destruct Ha'. apply (eq_nocase_trans _ t); auto using eq_nocase_sym.
    + destruct Ha. by apply (eq_nocase_trans _ t').
Qed.

Lemma modern_sort_constants_bound : sort_constants_bound (import_block modern).
Proof. split; compute_done. Defined.

Lemma normalize_sort_replaces_tokens_witness :
  let g := import_block modern in
  let pairs := [(PStr "name", "Ascending"); (PStr "version", "descending")] in
  sort_constants_bound g /\
  Forall (fun p => valid_direction (snd p)) pairs /\
  _fix_sort_parameter g (PList (map pair_item pairs))
    = Ret (PList [PList [PStr "name"; PInt 1]; PList [PStr "version"; PInt (-1)]]).
Proof.
  intros g pairs.
  assert (Hg : sort_constants_bound g) by exact modern_sort_constants_bound.
  assert (Hall : Forall (fun p => valid_direction (snd p)) pairs).
  { compute_done. }
  split; [exact Hg|]. split; [exact Hall|].
  exact (proj1 (proj2 (normalize_sort_replaces_tokens g pairs Hg Hall))).
Defined.

(** ** Tokens that are not strings *)

Lemma fix_items_stops (g : Globals) (pre post : list pyval) (item : pyval) (e : exn) :
  Forall (normalises g) pre -> fix_item g item = Raise e ->
  fix_items g (pre ++ item :: post) = Raise e.
Proof.
  intros Hpre Hitem. induction Hpre as [|it pre [it' Hit] _ IH]; simpl.
  - by rewrite Hitem.
  - by rewrite Hit, IH.
Qed.

(** Whatever surrounds it, a pair the body does not get past keeps the loop
    from returning. *)
Lemma fix_items_no_result (g : Globals) (items : list pyval) :
  Exists (fun item => forall item', fix_item g item <> Ret item') items ->
  forall out, fix_items g items <> Ret out.
Proof.
  induction 1 as [item rest Hbad|item rest _ IH]; intros out; simpl.
  - destruct (fix_item g item) as [item'| |] eqn:E; try done.
    by destruct (Hbad item').
  - destruct (fix_item g item) as [item'| |]; try done. simpl.
    destruct (fix_items g rest) as [rest'| |] eqn:E; try done.
    by destruct (IH rest').
Qed.

Lemma no_result_with_non_string_token (g : Globals) (items : list pyval) :
  Exists has_non_string_token items ->
  forall out, _fix_sort_parameter g (PList items) <> Ret out.
Proof.
  intros Hex out. simpl.
  destruct (fix_items g items) as [items'| |] eqn:E; try done.
  intros _. refine (fix_items_no_result g items _ items' E).
  eapply Exists_impl; [exact Hex|].
  intros item (fields & token & -> & Hl & Hns) item'.
  by rewrite (fix_item_non_string g fields token Hl Hns).
Qed.

(** With string tokens the call ends in a value or in the structured
    failure, never in an exception. *)
Lemma total_on_string_tokens (g : Globals) (pairs : list (pyval * string)) :
  sort_constants_bound g ->
  (exists out, _fix_sort_parameter g (PList (map pair_item pairs)) = Ret out) \/
  (exists token, In token (map snd pairs) /\ ~ valid_direction token /\
     _fix_sort_parameter g (PList (map pair_item pairs))
       = FailJson (invalid_sort_msg token)).
Proof.
  intros Hg.
  destruct (decide (Forall (fun p => valid_direction (snd p)) pairs)) as [Hall|Hex].
  - left. eexists. simpl. by rewrite (fix_items_valid g pairs Hg Hall).
  - right. apply not_Forall_Exists in Hex; [|intros p; apply _].
    destruct (first_invalid_split pairs Hex) as (pre & p & post & -> & Hpre & Hp).
    exists (snd p). split; [|split; [done|]].
    + rewrite map_app. apply in_or_app. right. by left.
    + simpl. by rewrite (fix_items_first_invalid g pre post p Hg Hpre Hp).
Qed.

(** C9, counterexample.  The loop stops at the first pair with the
    structured failure and never reaches the integer. *)
Lemma unknown_then_integer_fails_structured :
  Exists has_non_string_token unknown_then_integer /\
  _fix_sort_parameter (import_block modern) (PList unknown_then_integer)
    = FailJson (invalid_sort_msg "bogus") /\
  ~ attribute_error_wherever_the_pair_is.
Proof.
  assert (Hex : Exists has_non_string_token unknown_then_integer).
  { right. left. exists [PStr "b"; PInt 1], (PInt 1).
    split; [done|]. split; [done|]. intros s. discriminate. }
  split; [exact Hex|]. split; [by vm_compute|].
  intros Hclaim. specialize (Hclaim (import_block modern) _ Hex).
  vm_compute in Hclaim. discriminate.
Qed.

(** C9, as amended.  When the pairs before it are normalised, a pair whose
    direction token is not a string makes sort normalization raise an
    AttributeError (the call of [upper]) and not the structured failure;
    wherever the pair stands, the call returns no normalised value; and a
    specification whose tokens are all strings ends in a value or in the
    structured failure. *)
Theorem non_string_token_raises_attribute_error
    (g : Globals) (pre post : list pyval) (item : pyval) :
  has_non_string_token item ->
  Forall (normalises g) pre ->
  _fix_sort_parameter g (PList (pre ++ item :: post))
    = Raise (AttributeError "upper") /\
  (forall (g' : Globals) (items : list pyval) out, In item items ->
     _fix_sort_parameter g' (PList items) <> Ret out) /\
  (forall pairs : list (pyval * string), sort_constants_bound g ->
     (exists out, _fix_sort_parameter g (PList (map pair_item pairs)) = Ret out) \/
     (exists msg, _fix_sort_parameter g (PList (map pair_item pairs)) = FailJson msg)).
Proof.
  intros Hitem Hpre. split; [|split].
  - destruct Hitem as (fields & token & -> & Hl & Hns). simpl.
    by rewrite (fix_items_stops g pre post _ _ Hpre
                  (fix_item_non_string g fields token Hl Hns)).
  - intros g' items out Hin. apply no_result_with_non_string_token.
    apply Exists_exists. exists item. split; [by apply list_elem_of_In|done].
  - intros pairs Hg. destruct (total_on_string_tokens g pairs Hg) as [H|(t & _ & _ & H)];
      [by left|right; eauto].
Qed.

Lemma non_string_token_raises_attribute_error_witness :
  let g := import_block modern in
  let pre := [PList [PStr "name"; PStr "ascending"]] in
  let item := PList [PStr "age"; PInt 1] in
  has_non_string_token item /\ Forall (normalises g) pre /\
  _fix_sort_parameter g (PList (pre ++ item :: []))
    = Raise (AttributeError "upper").
Proof.
  intros g pre item.
  assert (Hitem : has_non_string_token item).
  { exists [PStr "age"; PInt 1], (PInt 1). split; [done|]. split; [done|].
    intros s. discriminate. }
  assert (Hpre : Forall (normalises g) pre).
  { constructor; [|constructor]. eexists. by vm_compute. }
  split; [exact Hitem|]. split; [exact Hpre|].
  exact (proj1 (non_string_token_raises_attribute_error g pre [] item Hitem Hpre)).
Defined.

(** ** The parameters [AnsibleModule] hands to [main] *)

#[global] Arguments set_defaults : simpl never.
#[global] Arguments handle_aliases : simpl never.
#[global] Arguments check_arguments : simpl never.
#[global] Arguments check_required_arguments : simpl never.
#[global] Arguments check_argument_types : simpl never.
#[global] Arguments AnsibleModule : simpl never.
#[global] Arguments import_block : simpl never.

Lemma set_defaults_cons (pre : bool) (k : string) (a : ArgSpec)
    (spec : list (string * ArgSpec)) (params : gmap string pyval) :
  set_defaults pre ((k, a) :: spec) params =
  set_defaults pre spec
    (if has_key params k then params
     else if pre && is_none (arg_default a) then params
     else <[k := arg_default a]> params).
Proof. reflexivity. Qed.

Lemma set_defaults_present (pre : bool) (spec : list (string * ArgSpec))
    (params : gmap string pyval) (k : string) (v : pyval) :
  params !! k = Some v -> set_defaults pre spec params !! k = Some v.
Proof.
  revert params.
  induction spec as [|[k' a] spec IH]; intros params H; [done|].
  rewrite set_defaults_cons. apply IH.
  unfold has_key. destruct (params !! k') eqn:E; [done|].
  destruct (pre && is_none (arg_default a)); [done|].
  rewrite lookup_insert_ne; [done|]. intros ->. congruence.
Qed.

(** After the second pass of [_set_defaults] every declared parameter has a
    value, so [module.params[k]] does not raise for them. *)
Lemma set_defaults_total (spec : list (string * ArgSpec))
    (params : gmap string pyval) (k : string) (a : ArgSpec) :
  In (k, a) spec -> is_Some (set_defaults false spec params !! k).
Proof.
  revert params. induction spec as [|[k' a'] spec IH]; intros params Hin; [done|].
  rewrite set_defaults_cons. destruct Hin as [Heq|Hin]; [|by apply IH].
  injection Heq as -> ->. unfold has_key.
  destruct (params !! k) as [v|] eqn:E.
  - exists v. by apply set_defaults_present.
  - exists (arg_default a). apply set_defaults_present.
    simpl. by rewrite lookup_insert_eq.
Qed.

(** Before the checks, a parameter without a default stays absent. *)
Lemma set_defaults_absent (spec : list (string * ArgSpec))
    (params : gmap string pyval) (k : string) :
  params !! k = None ->
  (forall a, In (k, a) spec -> is_none (arg_default a) = true) ->
  set_defaults true spec params !! k = None.
Proof.
  revert params.
  induction spec as [|[k' a'] spec IH]; intros params H Hd; [done|].
  rewrite set_defaults_cons.
  apply IH; [|intros a Ha; apply Hd; by right].
  unfold has_key. destruct (params !! k') eqn:E; [done|].
  destruct (decide (k' = k)) as [->|Hne].
  - by rewrite (Hd a' (or_introl eq_refl)).
  - destruct (true && is_none (arg_default a')); [done|].
    by rewrite lookup_insert_ne.
Qed.

Lemma result_bind_ret {A B} (m : result A) (f : A -> result B) (b : B) :
  m ≫= f = Ret b -> exists a, m = Ret a /\ f a = Ret b.
Proof. destruct m as [a| |]; try discriminate. intros H. by exists a. Qed.

Lemma AnsibleModule_params (w : World) (args params : gmap string pyval) :
  AnsibleModule w argument_spec args = Ret params ->
  forall k a, In (k, a) argument_spec -> is_Some (params !! k).
Proof.
  unfold AnsibleModule. intros H k a Hin. cbv zeta in H.
  apply result_bind_ret in H as (_ & _ & H).
  apply result_bind_ret in H as (_ & _ & H).
  apply result_bind_ret in H as (p & _ & H).
  injection H as <-. by apply (set_defaults_total _ _ k a).
Qed.

Lemma main_without_module (w : World) (args : gmap string pyval) (s : State) :
  (forall e, AnsibleModule w argument_spec args = Raise e -> main w args s = (Raise e, s)) /\
  (forall msg, AnsibleModule w argument_spec args = FailJson msg ->
     main w args s = (FailJson msg, s)).
Proof.
  split; intros x H; unfold main, mbind, M_bind, lift; by rewrite H.
Qed.

Lemma main_without_driver (w : World) (args params : gmap string pyval) (s : State) :
  AnsibleModule w argument_spec args = Ret params ->
  pymongo_found (import_block (installed w)) = false ->
  main w args s = (FailJson "the python pymongo module is required", s).
Proof.
  intros HA Hfound. unfold main, mbind, M_bind, lift. by rewrite HA, Hfound.
Qed.

(** What is left of [main] once the module object exists and the driver was
    found: the eight parameters are read, the sort specification is
    normalised, and the query block runs under the handler. *)
Lemma main_after_validation (w : World) (args params : gmap string pyval) (s : State) :
  AnsibleModule w argument_spec args = Ret params ->
  pymongo_found (import_block (installed w)) = true ->
  main w args s =
    match _fix_sort_parameter (import_block (installed w)) (the params "sort") with
    | Ret sort =>
        try_except
          (query_block w (import_block (installed w))
             (the params "connection_string") (request_of params sort))
          (connection_failure_handler (import_block (installed w))) s
    | Raise e => (Raise e, s)
    | FailJson msg => (FailJson msg, s)
    end.
Proof.
  intros HA Hfound.
  pose proof (AnsibleModule_params w args params HA) as Hk.
  destruct (Hk "connection_string" _ ltac:(unfold argument_spec; simpl; eauto 10)) as [cs Hcs].
  destruct (Hk "database" _ ltac:(unfold argument_spec; simpl; eauto 10)) as [db Hdb].
  destruct (Hk "collection" _ ltac:(unfold argument_spec; simpl; eauto 10)) as [coll Hcoll].
  destruct (Hk "query" _ ltac:(unfold argument_spec; simpl; eauto 10)) as [q Hq].
  destruct (Hk "projection" _ ltac:(unfold argument_spec; simpl; eauto 10)) as [pr Hpr].
  destruct (Hk "skip" _ ltac:(unfold argument_spec; simpl; eauto 10)) as [sk Hsk].
  destruct (Hk "limit" _ ltac:(unfold argument_spec; simpl; eauto 10)) as [lim Hlim].
  destruct (Hk "sort" _ ltac:(unfold argument_spec; simpl; eauto 10)) as [srt Hsrt].
  unfold request_of, the, main, param, mbind, M_bind, lift, mret, M_ret.
  rewrite HA, Hfound, Hcs, Hdb, Hcoll, Hq, Hpr, Hsk, Hlim, Hsrt. simpl.
  by destruct (_fix_sort_parameter _ srt).
Qed.

(** ** Failing fast on an unknown direction *)

(** C2. For a sort specification of (fieldName, directionToken) pairs that
    contains a token naming no direction, execution fails with the
    structured failure that quotes the first such token, and the state is
    the one [main] started in: no connection was attempted, nothing was
    printed. *)
Theorem invalid_direction_fails_before_connecting
    (w : World) (args params : gmap string pyval)
    (pairs : list (pyval * string)) (s : State) :
  AnsibleModule w argument_spec args = Ret params ->
  pymongo_found (import_block (installed w)) = true ->
  sort_constants_bound (import_block (installed w)) ->
  params !! "sort" = Some (PList (map pair_item pairs)) ->
  Exists (fun p => ~ valid_direction (snd p)) pairs ->
  exists pre p post,
    pairs = pre ++ p :: post /\
    Forall (fun p => valid_direction (snd p)) pre /\
    ~ valid_direction (snd p) /\
    main w args s = (FailJson (invalid_sort_msg (snd p)), s).
Proof.
  intros HA Hfound Hg Hsort Hex.
  destruct (first_invalid_split pairs Hex) as (pre & p & post & -> & Hpre & Hp).
  exists pre, p, post. repeat (split; [done|]).
  rewrite (main_after_validation w args params s HA Hfound).
  unfold the. rewrite Hsort. simpl.
  by rewrite (fix_items_first_invalid _ pre post p Hg Hpre Hp).
Qed.

Lemma params_of_returned (w : World) (args : gmap string pyval) :
  returns (AnsibleModule w argument_spec args) = true ->
  AnsibleModule w argument_spec args = Ret (params_of w args).
Proof.
  unfold params_of. by destruct (AnsibleModule w argument_spec args).
Defined.

Lemma invalid_direction_fails_before_connecting_witness :
  let w := world modern (serving []) in
  let args := task_with_unknown_direction in
  let pairs := [(PStr "name", "ASCENDING"); (PStr "version", "newest")] in
  AnsibleModule w argument_spec args = Ret (params_of w args) /\
  pymongo_found (import_block (installed w)) = true /\
  sort_constants_bound (import_block (installed w)) /\
  params_of w args !! "sort" = Some (PList (map pair_item pairs)) /\
  Exists (fun p => ~ valid_direction (snd p)) pairs /\
  exists pre p post,
    pairs = pre ++ p :: post /\
    Forall (fun p => valid_direction (snd p)) pre /\
    ~ valid_direction (snd p) /\
    main w args initial = (FailJson (invalid_sort_msg (snd p)), initial).
Proof.
  intros w args pairs.
  assert (H1 : AnsibleModule w argument_spec args = Ret (params_of w args))
    by (apply params_of_returned; vm_compute; reflexivity).
  assert (H2 : pymongo_found (import_block (installed w)) = true)
    by (vm_compute; reflexivity).
  assert (H3 : sort_constants_bound (import_block (installed w)))
    by exact modern_sort_constants_bound.
  assert (H4 : params_of w args !! "sort" = Some (PList (map pair_item pairs)))
    by (vm_compute; reflexivity).
  assert (H5 : Exists (fun p => ~ valid_direction (snd p)) pairs)
    by compute_done.
  repeat (split; [assumption|]).
  exact (invalid_direction_fails_before_connecting w args _ pairs initial H1 H2 H3 H4 H5).
Defined.

(** ** The dependency check *)

(** C6, counterexample.  Without a driver and without the required
    parameters, the failure reported is the one of parameter validation:
    [AnsibleModule] is constructed on line 161, the flag is read on line
    175. *)
Lemma missing_parameters_reported_before_missing_driver :
  pymongo_found (import_block (installed (world no_driver (serving [])))) = false /\
  main (world no_driver (serving [])) (task [("query", PDict [])]) initial
    = (FailJson "missing required arguments: database,collection", initial) /\
  ~ dependency_failure_whatever_the_parameters.
Proof.
  split; [by vm_compute|]. split; [by vm_compute|].
  intros Hclaim.
  specialize (Hclaim (world no_driver (serving [])) (task [("query", PDict [])]) initial).
  vm_compute in Hclaim. specialize (Hclaim eq_refl). discriminate.
Qed.

Lemma run_imports_failed (stmts : list (bool * list string)) (acc : gset string) :
  snd (run_imports stmts acc) = false <-> Exists (fun st => fst st = false) stmts.
Proof.
  revert acc. induction stmts as [|[[] names] stmts IH]; intros acc; simpl.
  - split; [done|]. by inversion 1.
  - rewrite IH. split; [by right|]. by inversion 1.
  - split; [by left|done].
Qed.

(** The flag is false exactly when an import of the [try] body fails and
    the fallback import fails too. *)
Lemma pymongo_not_found (h : Installed) :
  pymongo_found (import_block h) = false <->
  Exists (fun st => fst st = false) (import_statements h) /\ pymongo_Connection h = false.
Proof.
  rewrite <- (run_imports_failed _ ∅). unfold import_block.
  destruct (run_imports (import_statements h) ∅) as [names []]; simpl.
  - split; [done|]. by intros [? _].
  - destruct (pymongo_Connection h); simpl; split; try done. by intros [_ ?].
Qed.

(** C6, as amended.  When the driver library is unavailable and the
    parameters pass the validation of [AnsibleModule], execution fails with
    the dependency failure, before the sort specification is looked at and
    before any connection; when the validation fails, its failure is the one
    reported. *)
Theorem missing_driver_fails_after_validation
    (w : World) (args : gmap string pyval) (s : State) :
  pymongo_found (import_block (installed w)) = false ->
  (forall params, AnsibleModule w argument_spec args = Ret params ->
     main w args s = (FailJson "the python pymongo module is required", s)) /\
  (forall msg, AnsibleModule w argument_spec args = FailJson msg ->
     main w args s = (FailJson msg, s)).
Proof.
  intros Hfound. split.
  - intros params HA. by apply (main_without_driver w args params).
  - apply main_without_module.
Qed.

(** No driver, and a sort specification that would not normalise. *)
Lemma missing_driver_fails_after_validation_witness :
  let w := world no_driver (serving []) in
  let args := task_with_unknown_direction in
  pymongo_found (import_block (installed w)) = false /\
  AnsibleModule w argument_spec args = Ret (params_of w args) /\
  main w args initial = (FailJson "the python pymongo module is required", initial).
Proof.
  intros w args.
  assert (H1 : pymongo_found (import_block (installed w)) = false)
    by (vm_compute; reflexivity).
  assert (H2 : AnsibleModule w argument_spec args = Ret (params_of w args))
    by (apply params_of_returned; vm_compute; reflexivity).
  split; [exact H1|]. split; [exact H2|].
  exact (proj1 (missing_driver_fails_after_validation w args initial H1) _ H2).
Defined.

(** ** Required parameters *)

Lemma check_arguments_cases (spec : list (string * ArgSpec)) (params : gmap string pyval) :
  check_arguments spec params = Ret tt \/
  exists msg, check_arguments spec params = FailJson msg.
Proof.
  unfold check_arguments. destruct (filter _ _); [by left|right; eauto].
Qed.

(** Only [database] has an alias. *)
Lemma handle_aliases_argument_spec (args : gmap string pyval) :
  handle_aliases argument_spec args =
  match args !! "db" with
  | Some x => <["database" := x]> args
  | None => args
  end.
Proof. reflexivity. Qed.

Lemma missing_arguments_In (spec : list (string * ArgSpec))
    (params : gmap string pyval) (k : string) (a : ArgSpec) :
  In (k, a) spec -> arg_required a = true -> params !! k = None ->
  In k (missing_arguments spec params).
Proof.
  intros Hin Hreq Hk. unfold missing_arguments.
  apply (in_map fst _ (k, a)). apply filter_In. split; [done|].
  simpl. unfold has_key. by rewrite Hreq, Hk.
Qed.

(** A required parameter that was not supplied stops [AnsibleModule]. *)
Lemma AnsibleModule_missing_required (w : World) (args : gmap string pyval)
    (k : string) (a : ArgSpec) :
  In (k, a) argument_spec -> arg_required a = true -> arg_default a = PNone ->
  (forall a', In (k, a') argument_spec -> a' = a) ->
  handle_aliases argument_spec args !! k = None ->
  exists msg, AnsibleModule w argument_spec args = FailJson msg /\
    (check_arguments argument_spec (handle_aliases argument_spec args) = Ret tt ->
     exists missing, In k missing /\ msg = missing_required_msg missing).
Proof.
  intros Hin Hreq Hdef Huniq Hk. unfold AnsibleModule. cbv zeta.
  destruct (check_arguments_cases argument_spec (handle_aliases argument_spec args))
    as [Hc|[msg Hc]]; rewrite Hc.
  - assert (Habs : set_defaults true argument_spec
                     (handle_aliases argument_spec args) !! k = None).
    { apply set_defaults_absent; [done|]. intros a' Ha'.
      by rewrite (Huniq a' Ha'), Hdef. }
    pose proof (missing_arguments_In argument_spec _ k a Hin Hreq Habs) as Hm.
    unfold check_required_arguments.
    destruct (missing_arguments argument_spec _) as [|m ms] eqn:E; [done|].
    eexists. split; [reflexivity|]. intros _. exists (m :: ms). by split.
  - exists msg. split; [done|]. intros H. discriminate.
Qed.

Lemma database_declared_once (a' : ArgSpec) :
  In ("database", a') argument_spec ->
  a' = {| arg_required := true; arg_aliases := ["db"]; arg_type := None;
          arg_default := PNone; arg_no_log := false |}.
Proof.
  unfold argument_spec. simpl. intros H.
  repeat (destruct H as [H|H]; [by inversion H|]). done.
Qed.

Lemma collection_declared_once (a' : ArgSpec) :
  In ("collection", a') argument_spec ->
  a' = {| arg_required := true; arg_aliases := []; arg_type := None;
          arg_default := PNone; arg_no_log := false |}.
Proof.
  unfold argument_spec. simpl. intros H.
  repeat (destruct H as [H|H]; [by inversion H|]). done.
Qed.

(** C5, counterexample.  An empty database name passes [required=True]:
    the client is built and the collection object is asked for before the
    driver refuses the name, with an exception that is not a structured
    failure. *)
Lemma empty_database_name_reaches_the_driver :
  let args := task [("database", PStr ""); ("collection", PStr "startup_log")] in
  args !! "database" = Some (PStr "") /\
  main (world modern (checking_names [])) args initial
    = (Raise (DriverExn (DriverError "database name cannot be the empty string")),
       {| trace := [EvConnect (PStr "mongodb://localhost/");
                    EvFind {| fr_database := PStr "";
                              fr_collection := PStr "startup_log";
                              fr_query := PDict []; fr_projection := PNone;
                              fr_skip := PInt 0; fr_limit := PInt 0;
                              fr_sort := PNone |}];
          stdout := [] |}) /\
  ~ empty_name_fails_before_connecting.
Proof.
  intros args. split; [by vm_compute|]. split; [by vm_compute|].
  intros Hclaim.
  destruct (Hclaim (world modern (checking_names [])) args initial) as [msg Hmsg].
  { left. by vm_compute. }
  vm_compute in Hmsg. discriminate.
Qed.

(** C5, as amended.  When [database] (under its name and under its alias
    [db]) or [collection] is not among the supplied parameters, execution
    ends in a structured failure in the state [main] started in, so before
    any connection; when the supplied names are all declared ones, the
    failure is the missing-required-arguments failure and names the
    parameter. *)
Theorem missing_required_fails_before_connecting
    (w : World) (args : gmap string pyval) (s : State) (k : string) :
  (k = "database" /\ args !! "db" = None) \/ k = "collection" ->
  args !! k = None ->
  exists msg, main w args s = (FailJson msg, s) /\
    (check_arguments argument_spec (handle_aliases argument_spec args) = Ret tt ->
     exists missing, In k missing /\ msg = missing_required_msg missing).
Proof.
  intros Hk Habs.
  assert (Hal : handle_aliases argument_spec args !! k = None).
  { rewrite handle_aliases_argument_spec.
    destruct Hk as [[-> Hdb]| ->]; [by rewrite Hdb|].
    destruct (args !! "db"); [|done]. by rewrite lookup_insert_ne. }
  assert (HA : exists msg, AnsibleModule w argument_spec args = FailJson msg /\
    (check_arguments argument_spec (handle_aliases argument_spec args) = Ret tt ->
     exists missing, In k missing /\ msg = missing_required_msg missing)).
  { destruct Hk as [[-> _]| ->].
    - eapply AnsibleModule_missing_required;
        [unfold argument_spec; simpl; eauto 10|done|done| |done].
      apply database_declared_once.
    - eapply AnsibleModule_missing_required;
        [unfold argument_spec; simpl; eauto 10|done|done| |done].
      apply collection_declared_once. }
  destruct HA as (msg & HA & Hmsg). exists msg. split; [|done].
  by apply main_without_module.
Qed.

Lemma missing_required_fails_before_connecting_witness :
  let w := world modern (serving []) in
  let args := task [("collection", PStr "startup_log")] in
  (("database" = "database" /\ args !! "db" = None) \/ "database" = "collection") /\
  args !! "database" = None /\
  exists msg, main w args initial = (FailJson msg, initial) /\
    (check_arguments argument_spec (handle_aliases argument_spec args) = Ret tt ->
     exists missing, In "database" missing /\ msg = missing_required_msg missing).
Proof.
  intros w args.
  assert (H1 : ("database" = "database" /\ args !! "db" = None) \/
               "database" = "collection") by (left; split; reflexivity).
  assert (H2 : args !! "database" = None) by reflexivity.
  split; [exact H1|]. split; [exact H2|].
  exact (missing_required_fails_before_connecting w args initial "database" H1 H2).
Defined.

(** ** The query block under its handler *)

Ltac unfold_block :=
  unfold query_block, try_except, connection_failure_handler, connect, find,
    json_util_dumps, json_convert, iterate, emit, print, sys_exit, of_driver,
    lift, mbind, M_bind, mret, M_ret.

(** When every driver call goes through, the block makes the three calls in
    order, prints the encoded envelope once and leaves with [sys.exit(0)]. *)
Lemma query_block_succeeds (w : World) (g : Globals) (cs : pyval)
    (req : FindRequest) (docs : list pyval) (s : State) :
  query_names_bound g ->
  drv_connect (driver w) cs = None ->
  drv_find (driver w) req = None ->
  drv_iterate (driver w) req = inr docs ->
  try_except (query_block w g cs req) (connection_failure_handler g) s =
    (Raise (SystemExit 0),
     {| trace := trace s ++ [EvConnect cs; EvFind req; EvIterate req];
        stdout := stdout s ++ [drv_encode (driver w) (envelope docs)] |}).
Proof.
  intros (Hm & Hj & Hc) Hconn Hfind Hiter. unfold_block.
  rewrite (lookup_name_bound g _ Hm), (lookup_name_bound g _ Hj),
    (lookup_name_bound g _ Hc), Hconn, Hfind, Hiter. simpl.
  by rewrite <- !app_assoc.
Qed.

(** What the handler makes of a driver exception: a connection failure
    becomes the structured failure with the driver's message, everything
    else goes on as the exception it is.  Nothing has been printed. *)
Lemma query_block_driver_failure (w : World) (g : Globals) (cs : pyval)
    (req : FindRequest) (e : driver_exn) (calls : list event) (s : State) :
  query_names_bound g -> fails_with w cs req e calls ->
  try_except (query_block w g cs req) (connection_failure_handler g) s =
    (match e with
     | ConnectionFailure m => FailJson ("unable to connect to database: " +:+ m)
     | _ => Raise (DriverExn e)
     end,
     {| trace := trace s ++ calls; stdout := stdout s |}).
Proof.
  intros (Hm & Hj & Hc) Hfail. unfold_block.
  rewrite (lookup_name_bound g _ Hm), (lookup_name_bound g _ Hj),
    (lookup_name_bound g _ Hc).
  destruct Hfail as [Hconn|Hconn Hfind|Hconn Hfind Hiter].
  - rewrite Hconn. simpl. by destruct e.
  - rewrite Hconn, Hfind. simpl. rewrite <- !app_assoc. by destruct e.
  - rewrite Hconn, Hfind, Hiter. simpl. rewrite <- !app_assoc. by destruct e.
Qed.

(** An exit status of 0 comes from [sys.exit(0)] alone, after the envelope
    was printed. *)
Lemma query_block_exit_zero (w : World) (g : Globals) (cs : pyval)
    (req : FindRequest) (s s' : State) (r : result unit) :
  try_except (query_block w g cs req) (connection_failure_handler g) s = (r, s') ->
  exit_code r = 0 ->
  exists docs,
    drv_iterate (driver w) req = inr docs /\
    r = Raise (SystemExit 0) /\
    trace s' = trace s ++ [EvConnect cs; EvFind req; EvIterate req] /\
    stdout s' = stdout s ++ [drv_encode (driver w) (envelope docs)].
Proof.
  unfold_block. unfold lookup_name. intros H Hexit.
  destruct (decide ("ConnectionFailure" ∈ bound g));
  destruct (decide ("MongoClient" ∈ bound g));
  destruct (decide ("json_util" ∈ bound g));
  destruct (drv_connect (driver w) cs) as [[]|];
  destruct (drv_find (driver w) req) as [[]|];
  destruct (drv_iterate (driver w) req) as [[]|docs];
  simpl in H; injection H as <- <-; simpl in Hexit; try discriminate.
  all: exists docs; simpl; by rewrite <- !app_assoc.
Qed.

(** ** Failures of the driver *)

(** X9. Everything the handler does with a driver exception, seen from
    [main], whichever of the three driver calls raises it: a connection
    failure is reported as a structured failure that carries
    the driver's message; any other driver exception, an operation failure
    included, leaves [main] as an exception.  In both cases nothing was
    printed. *)
Lemma main_driver_failure (w : World) (args params : gmap string pyval)
    (sort : pyval) (e : driver_exn) (calls : list event) (s : State) :
  AnsibleModule w argument_spec args = Ret params ->
  pymongo_found (import_block (installed w)) = true ->
  query_names_bound (import_block (installed w)) ->
  _fix_sort_parameter (import_block (installed w)) (the params "sort") = Ret sort ->
  fails_with w (the params "connection_string") (request_of params sort) e calls ->
  main w args s =
    (match e with
     | ConnectionFailure m => FailJson ("unable to connect to database: " +:+ m)
     | _ => Raise (DriverExn e)
     end,
     {| trace := trace s ++ calls; stdout := stdout s |}).
Proof.
  intros HA Hfound Hg Hsort Hfail.
  rewrite (main_after_validation w args params s HA Hfound), Hsort.
  by apply query_block_driver_failure.
Qed.

(** C3, at the failing input.  A server that refuses the query makes the
    driver raise OperationFailure while the cursor is run; [main] has no
    clause for it, the exception leaves [main] and [fail_json] is never
    called.  A connection failure at the same place is reported through
    [fail_json]. *)
Theorem operation_failure_leaves_main_unhandled :
  main (world modern (refusing "unknown operator")) startup_log_task initial
    = (Raise (DriverExn (OperationFailure "unknown operator")),
       {| trace := [EvConnect (PStr "mongodb://localhost/");
                    EvFind startup_log_request; EvIterate startup_log_request];
          stdout := [] |}) /\
  main (world modern (unreachable "no route to host")) startup_log_task initial
    = (FailJson "unable to connect to database: no route to host",
       {| trace := [EvConnect (PStr "mongodb://localhost/");
                    EvFind startup_log_request; EvIterate startup_log_request];
          stdout := [] |}).
Proof. split; by vm_compute. Qed.

(** ** Successful runs *)

Lemma result_bind_raise {A B} (m : result A) (f : A -> result B) (e : exn) :
  m ≫= f = Raise e -> m = Raise e \/ exists a, m = Ret a /\ f a = Raise e.
Proof.
  destruct m as [a|e'|msg]; intros H.
  - right. by exists a.
  - left. simpl in H. by injection H as ->.
  - discriminate H.
Qed.

Lemma lookup_name_no_exit (g : Globals) (name : string) (e : exn) :
  lookup_name g name = Raise e -> is_exit e = false.
Proof. unfold lookup_name. destruct (decide _); [done|]. by intros [= <-]. Qed.

Lemma fix_item_no_exit (g : Globals) (item : pyval) (e : exn) :
  fix_item g item = Raise e -> is_exit e = false.
Proof.
  unfold fix_item. intros H.
  apply result_bind_raise in H as [H|(tok & _ & H)].
  { destruct item as [| | |s|items| | |]; simpl in H; try (by injection H as <-).
    - destruct (String.get 1 s); [done|]. by injection H as <-.
    - destruct (items !! 1%nat); [done|]. by injection H as <-. }
  apply result_bind_raise in H as [H|(up & _ & H)].
  { destruct tok; simpl in H; try (by injection H as <-). done. }
  assert (Hset : forall v, setitem1 item v = Raise e -> is_exit e = false).
  { intros v Hv. destruct item as [| | | |items| | |]; simpl in Hv;
      try (by injection Hv as <-).
    destruct (decide (1 < length items)%nat); [done|]. by injection Hv as <-. }
  destruct (decide (up = "ASCENDING")).
  - apply result_bind_raise in H as [H|(_ & _ & H)];
      [by apply lookup_name_no_exit in H|by apply Hset in H].
  - destruct (decide (up = "DESCENDING")); [|done].
    apply result_bind_raise in H as [H|(_ & _ & H)];
      [by apply lookup_name_no_exit in H|by apply Hset in H].
Qed.

Lemma fix_items_no_exit (g : Globals) (items : list pyval) (e : exn) :
  fix_items g items = Raise e -> is_exit e = false.
Proof.
  induction items as [|item items IH]; simpl; [done|]. intros H.
  apply result_bind_raise in H as [H|(item' & _ & H)];
    [by apply fix_item_no_exit in H|].
  apply result_bind_raise in H as [H|(rest' & _ & H)]; [by apply IH|done].
Qed.

(** Sort normalisation never ends the process with an exit status of its
    own. *)
Lemma fix_sort_parameter_no_exit (g : Globals) (v : pyval) (e : exn) :
  _fix_sort_parameter g v = Raise e -> is_exit e = false.
Proof.
  intros H. destruct v; simpl in H; try (by injection H as <-); try done.
  all: apply result_bind_raise in H as [H|(? & _ & H)]; [|done].
  all: by apply fix_items_no_exit in H.
Qed.

Lemma check_argument_types_cons (w : World) (k : string) (a : ArgSpec)
    (spec : list (string * ArgSpec)) (params : gmap string pyval) :
  check_argument_types w ((k, a) :: spec) params =
  match params !! k with
  | None | Some PNone => check_argument_types w spec params
  | Some value =>
      match host_check_type w (default TStr (arg_type a)) value with
      | Some value' => check_argument_types w spec (<[k := value']> params)
      | None => fail_json ("argument " +:+ k +:+ " could not be converted")
      end
  end.
Proof. reflexivity. Qed.

Lemma check_argument_types_no_raise (w : World) (spec : list (string * ArgSpec))
    (params : gmap string pyval) (e : exn) :
  check_argument_types w spec params <> Raise e.
Proof.
  revert params. induction spec as [|[k a] spec IH]; intros params; [done|].
  rewrite check_argument_types_cons.
  destruct (params !! k) as [v|]; [|apply IH].
  destruct v; try apply IH;
    (destruct (host_check_type w (default TStr (arg_type a)) _); [apply IH|done]).
Qed.

Lemma check_required_arguments_cases (spec : list (string * ArgSpec))
    (params : gmap string pyval) :
  check_required_arguments spec params = Ret tt \/
  exists msg, check_required_arguments spec params = FailJson msg.
Proof.
  unfold check_required_arguments.
  destruct (missing_arguments spec params); [by left|right; eauto].
Qed.

Lemma AnsibleModule_no_raise (w : World) (spec : list (string * ArgSpec))
    (args : gmap string pyval) (e : exn) :
  AnsibleModule w spec args <> Raise e.
Proof.
  unfold AnsibleModule. cbv zeta.
  destruct (check_arguments_cases spec (handle_aliases spec args))
    as [Hc|[m Hc]]; rewrite Hc; simpl; [|done].
  destruct (check_required_arguments_cases spec
              (set_defaults true spec (handle_aliases spec args)))
    as [Hr|[m Hr]]; rewrite Hr; simpl; [|done].
  intros H. apply result_bind_raise in H as [H|(? & _ & H)]; [|done].
  by apply check_argument_types_no_raise in H.
Qed.

(** C4. Every run of [main] that ends with exit status 0 went through
    parameter validation and sort normalisation, made one connection and
    one find, ran the cursor to its end, printed exactly one line, the
    extended-JSON encoding of the dict with [changed] false and [result] the
    list of all documents of the cursor, and ended with [sys.exit(0)]. *)
Theorem successful_run_prints_envelope
    (w : World) (args : gmap string pyval) (s s' : State) (r : result unit) :
  main w args s = (r, s') ->
  exit_code r = 0 ->
  exists params sort docs,
    AnsibleModule w argument_spec args = Ret params /\
    _fix_sort_parameter (import_block (installed w)) (the params "sort") = Ret sort /\
    drv_iterate (driver w) (request_of params sort) = inr docs /\
    r = Raise (SystemExit 0) /\
    trace s' = trace s ++ [EvConnect (the params "connection_string");
                           EvFind (request_of params sort);
                           EvIterate (request_of params sort)] /\
    stdout s' = stdout s ++ [drv_encode (driver w) (envelope docs)].
Proof.
  intros Hmain Hexit.
  destruct (AnsibleModule w argument_spec args) as [params|e|msg] eqn:HA.
  - destruct (pymongo_found (import_block (installed w))) eqn:Hfound.
    + rewrite (main_after_validation w args params s HA Hfound) in Hmain.
      destruct (_fix_sort_parameter _ _) as [sort|e|msg] eqn:Hsort.
      * destruct (query_block_exit_zero _ _ _ _ _ _ _ Hmain Hexit)
          as (docs & Hiter & -> & Htrace & Hout).
        by exists params, sort, docs.
      * injection Hmain as <- <-. apply fix_sort_parameter_no_exit in Hsort.
        by destruct e.
      * by injection Hmain as <- <-.
    + rewrite (main_without_driver w args params s HA Hfound) in Hmain.
      by injection Hmain as <- <-.
  - by destruct (AnsibleModule_no_raise w argument_spec args e).
  - rewrite (proj2 (main_without_module w args s) msg HA) in Hmain.
    by injection Hmain as <- <-.
Qed.

Lemma successful_run_prints_envelope_witness :
  let w := world modern (serving one_record) in
  let s' := {| trace := [EvConnect (PStr "mongodb://localhost/");
                         EvFind startup_log_request; EvIterate startup_log_request];
               stdout := [drv_encode (driver w) (envelope one_record)] |} in
  main w startup_log_task initial = (Raise (SystemExit 0), s') /\
  exit_code (@Raise unit (SystemExit 0)) = 0 /\
  exists params sort docs,
    AnsibleModule w argument_spec startup_log_task = Ret params /\
    _fix_sort_parameter (import_block (installed w)) (the params "sort") = Ret sort /\
    drv_iterate (driver w) (request_of params sort) = inr docs /\
    @Raise unit (SystemExit 0) = Raise (SystemExit 0) /\
    trace s' = trace initial ++ [EvConnect (the params "connection_string");
                                 EvFind (request_of params sort);
                                 EvIterate (request_of params sort)] /\
    stdout s' = stdout initial ++ [drv_encode (driver w) (envelope docs)].
Proof.
  intros w s'.
  assert (H1 : main w startup_log_task initial = (Raise (SystemExit 0), s'))
    by (vm_compute; reflexivity).
  assert (H2 : exit_code (@Raise unit (SystemExit 0)) = 0) by reflexivity.
  split; [exact H1|]. split; [exact H2|].
  exact (successful_run_prints_envelope w startup_log_task initial s' _ H1 H2).
Defined.

(** ** The find operation *)

Lemma spec_find_length (sv : Server) (req : FindRequest) (skip limit : Z)
    (docs : list pyval) :
  (forall sort l, Permutation (srv_order sv sort l) l) ->
  fr_skip req = PInt skip -> fr_limit req = PInt limit ->
  spec_find sv req = inr docs ->
  length docs =
    if limit =? 0 then (length (matching_set sv req) - Z.to_nat skip)%nat
    else (Z.to_nat limit `min` (length (matching_set sv req) - Z.to_nat skip))%nat.
Proof.
  intros Hperm Hskip Hlimit. unfold spec_find. rewrite Hskip, Hlimit.
  destruct ((0 <=? skip) && (0 <=? limit)); [|done]. intros [= <-].
  assert (Hlen : forall l, length (match fr_projection req with
                                   | PNone => l
                                   | projection => map (srv_project sv projection) l
                                   end) = length l).
  { intros l. destruct (fr_projection req); by rewrite ?length_map. }
  assert (Hord : length (match fr_sort req with
                         | PNone => matching_set sv req
                         | sort => srv_order sv sort (matching_set sv req)
                         end) = length (matching_set sv req)).
  { destruct (fr_sort req); try done; apply Permutation_length, Hperm. }
  rewrite Hlen. destruct (limit =? 0).
  - by rewrite length_drop, Hord.
  - by rewrite length_take, length_drop, Hord.
Qed.

(** C7. Against a server that answers a find as the specification says,
    a run whose parameters are valid makes one connection and one find; the
    request of that find holds the filter, the projection, [skip], [limit]
    and the normalised sort specification together.  The run ends with exit
    status 0 and prints the documents of that one request: with [limit] 0
    their number is the size of the matching set minus [skip], and with
    [skip] at or beyond that size the sequence is empty and the run is still
    a success. *)
Theorem one_find_with_all_parameters
    (sv : Server) (encode : pyval -> string) (w : World)
    (args params : gmap string pyval) (sort : pyval) (skip limit : Z) (s : State) :
  driver w = modelled_driver sv encode ->
  (forall sort l, Permutation (srv_order sv sort l) l) ->
  AnsibleModule w argument_spec args = Ret params ->
  pymongo_found (import_block (installed w)) = true ->
  query_names_bound (import_block (installed w)) ->
  _fix_sort_parameter (import_block (installed w)) (the params "sort") = Ret sort ->
  the params "skip" = PInt skip -> the params "limit" = PInt limit ->
  0 <= skip -> 0 <= limit ->
  let req := {| fr_database := the params "database";
                fr_collection := the params "collection";
                fr_query := the params "query";
                fr_projection := the params "projection";
                fr_skip := PInt skip; fr_limit := PInt limit; fr_sort := sort |} in
  exists docs,
    main w args s =
      (Raise (SystemExit 0),
       {| trace := trace s ++ [EvConnect (the params "connection_string");
                               EvFind req; EvIterate req];
          stdout := stdout s ++ [encode (envelope docs)] |}) /\
    (limit = 0 ->
       length docs = (length (matching_set sv req) - Z.to_nat skip)%nat) /\
    ((length (matching_set sv req) <= Z.to_nat skip)%nat -> docs = []).
Proof.
  intros Hdrv Hperm HA Hfound Hg Hsort Hskip Hlimit Hs Hl req.
  assert (Hreq : request_of params sort = req).
  { unfold request_of, req. by rewrite Hskip, Hlimit. }
  assert (Hfind : exists docs, spec_find sv req = inr docs).
  { unfold spec_find. simpl.
    destruct (Z.leb_spec 0 skip); [|lia]. destruct (Z.leb_spec 0 limit); [|lia].
    simpl. eauto. }
  destruct Hfind as [docs Hdocs]. exists docs.
  pose proof (spec_find_length sv req skip limit docs Hperm eq_refl eq_refl Hdocs)
    as Hlen.
  split; [|split].
  - rewrite (main_after_validation w args params s HA Hfound), Hsort, Hreq.
    rewrite (query_block_succeeds w _ _ req docs s Hg).
    + by rewrite Hdrv.
    + by rewrite Hdrv.
    + by rewrite Hdrv.
    + by rewrite Hdrv.
  - intros ->. by rewrite Hlen.
  - intros Hbeyond. apply length_zero_iff_nil. rewrite Hlen.
    destruct (limit =? 0); lia.
Qed.

(** Three of five records match; the first four of the matching set are
    skipped. *)
Lemma one_find_with_all_parameters_witness :
  let sv := holding five_hosts in
  let w := {| installed := modern; host_check_type := check_type_basic;
              driver := modelled_driver sv keys_only |} in
  let args := task [("db", PStr "local"); ("collection", PStr "startup_log");
                    ("query", PDict [("hostname", PStr "batman")]);
                    ("skip", PInt 4);
                    ("sort", PList [PList [PStr "pid"; PStr "descending"]])] in
  let req := {| fr_database := PStr "local"; fr_collection := PStr "startup_log";
                fr_query := PDict [("hostname", PStr "batman")];
                fr_projection := PNone; fr_skip := PInt 4; fr_limit := PInt 0;
                fr_sort := PList [PList [PStr "pid"; PInt (-1)]] |} in
  main w args initial =
    (Raise (SystemExit 0),
     {| trace := [EvConnect (PStr "mongodb://localhost/"); EvFind req; EvIterate req];
        stdout := [keys_only (envelope [])] |}) /\
  length (matching_set sv req) = 3%nat.
Proof.
  intros sv w args req.
  assert (H1 : driver w = modelled_driver sv keys_only) by reflexivity.
  assert (H2 : forall sort l, Permutation (srv_order sv sort l) l) by reflexivity.
  assert (H3 : AnsibleModule w argument_spec args = Ret (params_of w args))
    by (apply params_of_returned; vm_compute; reflexivity).
  assert (H4 : pymongo_found (import_block (installed w)) = true)
    by (vm_compute; reflexivity).
  assert (H5 : query_names_bound (import_block (installed w)))
    by (repeat split; compute_done).
  assert (H6 : _fix_sort_parameter (import_block (installed w))
                 (the (params_of w args) "sort")
               = Ret (PList [PList [PStr "pid"; PInt (-1)]]))
    by (vm_compute; reflexivity).
  assert (H7 : the (params_of w args) "skip" = PInt 4) by (vm_compute; reflexivity).
  assert (H8 : the (params_of w args) "limit" = PInt 0) by (vm_compute; reflexivity).
  destruct (one_find_with_all_parameters sv keys_only w args _ _ 4 0 initial
              H1 H2 H3 H4 H5 H6 H7 H8 ltac:(lia) ltac:(lia))
    as (docs & Hmain & _ & Hempty).
  assert (Hdocs : docs = []) by (apply Hempty; vm_compute; lia).
  subst docs. split; [|by vm_compute].
  rewrite Hmain. by vm_compute.
Defined.

(** ** The extended JSON encoding *)

Lemma tagged_plain_members (kvs : list (string * pyval)) :
  forallb (fun '(k, v') => negb (is_tag k) && storable v') kvs = true ->
  tagged (map (fun '(k, v') => (k, ext_encode v')) kvs) = None.
Proof.
  destruct kvs as [|[k v] [|kv kvs]]; try done.
  - simpl. rewrite andb_true_r. intros [Hk _]%andb_prop.
    destruct (ext_encode v); simpl; try done;
      case_decide; subst; done.
  - simpl. intros _. destruct kv as [k' v']. by destruct (ext_encode v).
Qed.

Lemma ext_decode_encode (v : pyval) :
  storable v = true -> ext_decode (ext_encode v) = v.
Proof.
  induction v as [| | | |items IH|kvs IH| |] using pyval_nested_ind;
    intros Hst; try reflexivity.
  - simpl in *. f_equal. rewrite map_map.
    induction IH as [|x l Hx _ IHl]; [done|]. simpl in *.
    apply andb_prop in Hst as [Hs1 Hs2]. by rewrite Hx, IHl.
  - simpl in Hst. simpl. rewrite (tagged_plain_members kvs Hst).
    f_equal. rewrite map_map.
    induction IH as [|[k x] l Hx _ IHl]; [done|]. simpl in *.
    apply andb_prop in Hst as [[_ Hs1]%andb_prop Hs2]. by rewrite Hx, IHl.
Qed.

(** C8. For every result set whose documents are storable, that is, whose
    field names do not begin with a dollar sign, encoding the envelope with
    the extended encoder and decoding it again gives the envelope back;
    object identifiers and dates in the documents go through as tagged
    objects and come back as what they were. *)
Theorem extended_json_round_trip (docs : list pyval) :
  forallb storable docs = true ->
  ext_decode (ext_encode (envelope docs)) = envelope docs /\
  (forall hex, ext_encode (PObjectId hex) = JObj [("$oid", JStr hex)] /\
               ext_decode (JObj [("$oid", JStr hex)]) = PObjectId hex) /\
  (forall millis, ext_encode (PDatetime millis) = JObj [("$date", JNum millis)] /\
                  ext_decode (JObj [("$date", JNum millis)]) = PDatetime millis).
Proof.
  intros Hdocs. split; [|by split].
  apply ext_decode_encode. simpl. by rewrite Hdocs.
Qed.

Lemma extended_json_round_trip_witness :
  forallb storable one_record = true /\
  ext_decode (ext_encode (envelope one_record)) = envelope one_record.
Proof.
  assert (H : forallb storable one_record = true) by reflexivity.
  split; [exact H|]. exact (proj1 (extended_json_round_trip one_record H)).
Defined.

(** ** The fallback import *)

(** C10, counterexample.  With PyMongo 2.2, the release the fallback is
    written for, only the last import of the [try] body fails: the fallback
    is taken, every name the earlier imports bound is there, and a run that
    normalises a sort specification and serializes its result succeeds. *)
Lemma pymongo_2_2_binds_every_name :
  fallback_taken pymongo_2_2 /\
  Forall (fun name => name ∈ bound (import_block pymongo_2_2))
         ["ASCENDING"; "DESCENDING"; "json_util"; "ConnectionFailure"; "MongoClient"] /\
  fst (main (world pymongo_2_2 (serving one_record)) sorted_task initial)
    = Raise (SystemExit 0) /\
  ~ fallback_leaves_driver_names_unbound.
Proof.
  assert (Hf : fallback_taken pymongo_2_2) by (split; reflexivity).
  split; [exact Hf|]. split; [compute_done|]. split; [by vm_compute|].
  intros Hclaim. destruct (Hclaim pymongo_2_2 Hf) as (_ & Hasc).
  apply Forall_cons_1 in Hasc as [Hasc _]. apply Hasc. compute_done.
Qed.

Lemma import_block_first_failure (h : Installed) :
  bson_json_util h = false -> pymongo_Connection h = true ->
  import_block h = {| bound := {["MongoClient"]}; pymongo_found := true |}.
Proof.
  intros Hb Hc. unfold import_block, import_statements. rewrite Hb, Hc. simpl.
  f_equal; apply (right_id_L ∅ (∪)).
Qed.

(** C10, as amended.  When the first import of the [try] body fails and the
    fallback import succeeds, the flag is set to found while [MongoClient] is
    the only name bound: the sort constants, the serializer and the
    connection-failure class are undefined.  Normalising a sort
    specification whose first pair names a direction then raises a
    NameError, and every run that gets past sort normalisation ends in an
    unhandled NameError without having printed anything. *)
Theorem first_import_failure_leaves_names_unbound
    (w : World) (args : gmap string pyval) (s : State) :
  bson_json_util (installed w) = false ->
  pymongo_Connection (installed w) = true ->
  pymongo_found (import_block (installed w)) = true /\
  bound (import_block (installed w)) = {["MongoClient"]} /\
  (forall f token rest, valid_direction token ->
     exists name,
       _fix_sort_parameter (import_block (installed w))
         (PList (pair_item (f, token) :: rest)) = Raise (NameError name)) /\
  (forall params sort,
     AnsibleModule w argument_spec args = Ret params ->
     _fix_sort_parameter (import_block (installed w)) (the params "sort") = Ret sort ->
     exists s', main w args s = (Raise (NameError "ConnectionFailure"), s') /\
                stdout s' = stdout s).
Proof.
  intros Hb Hc. pose proof (import_block_first_failure _ Hb Hc) as Hg.
  split; [by rewrite Hg|]. split; [by rewrite Hg|]. split.
  - intros f token rest Hv. rewrite Hg. simpl. unfold fix_item, pair_item. simpl.
    destruct (decide (upper token = "ASCENDING")) as [Hu|Hu].
    + exists "ASCENDING". rewrite lookup_name_unbound; [done|simpl; set_solver].
    + destruct Hv as [Hv|Hv]; [by apply upper_is_ascending in Hv|].
      apply upper_is_descending in Hv. rewrite (decide_True _ _ Hv).
      exists "DESCENDING". rewrite lookup_name_unbound; [done|simpl; set_solver].
  - intros params sort HA Hsort.
    assert (Hfound : pymongo_found (import_block (installed w)) = true)
      by (by rewrite Hg).
    rewrite (main_after_validation w args params s HA Hfound), Hsort, Hg.
    unfold_block.
    rewrite (lookup_name_bound _ "MongoClient"); [|simpl; set_solver].
    rewrite (lookup_name_unbound _ "json_util"); [|simpl; set_solver].
    rewrite (lookup_name_unbound _ "ConnectionFailure"); [|simpl; set_solver].
    destruct (drv_connect (driver w) _); [by eexists|].
    destruct (drv_find (driver w) _); by eexists.
Qed.

Lemma first_import_failure_leaves_names_unbound_witness :
  let w := world bson_missing (serving one_record) in
  bson_json_util (installed w) = false /\
  pymongo_Connection (installed w) = true /\
  pymongo_found (import_block (installed w)) = true /\
  bound (import_block (installed w)) = {["MongoClient"]}.
Proof.
  intros w.
  assert (H1 : bson_json_util (installed w) = false) by reflexivity.
  assert (H2 : pymongo_Connection (installed w) = true) by reflexivity.
  split; [exact H1|]. split; [exact H2|].
  pose proof (first_import_failure_leaves_names_unbound w sorted_task initial H1 H2)
    as (H3 & H4 & _).
  split; [exact H3|exact H4].
Defined.

(** * Further properties of the code *)

(** ** The import block (lines 117-132) *)

(** X1. After the import block the dependency flag says exactly whether
    [MongoClient] is bound: whenever [main] gets past the test of line 175,
    the name of line 188 is defined. *)
Theorem flag_tracks_client_name (h : Installed) :
  pymongo_found (import_block h) = true <-> "MongoClient" ∈ bound (import_block h).
Proof.
  destruct h as [[] [] [] [] [] [] []]; compute_done.
Qed.

(** X2. Which names the import block binds: a name of the [try] body is
    bound exactly when its import and every import before it succeeded; a
    later failure, and the fallback, take nothing away. *)
Theorem names_bound_up_to_first_failure (h : Installed) :
  ("json_util" ∈ bound (import_block h) <-> bson_json_util h = true) /\
  ("ASCENDING" ∈ bound (import_block h) <->
     bson_json_util h = true /\ pymongo_sort_constants h = true) /\
  ("DESCENDING" ∈ bound (import_block h) <->
     bson_json_util h = true /\ pymongo_sort_constants h = true) /\
  ("ConnectionFailure" ∈ bound (import_block h) <->
     bson_json_util h = true /\ pymongo_sort_constants h = true /\
     pymongo_ConnectionFailure h = true).
Proof.
  destruct h as [[] [] [] [] [] [] []]; compute_done.
Qed.

(** ** [_fix_sort_parameter] (lines 140-154) *)

Lemma one_character_is_no_direction (c : ascii) :
  upper (String c EmptyString) <> "ASCENDING" /\
  upper (String c EmptyString) <> "DESCENDING".
Proof. split; simpl; intros H; by injection H. Qed.

Lemma fix_item_returned (g : Globals) (item item' : pyval) :
  fix_item g item = Ret item' -> normalised_from item item'.
Proof.
  unfold fix_item. intros H.
  apply result_bind_ret in H as (v & Hget & H).
  apply result_bind_ret in H as (up & Hup & H).
  destruct v as [| | |token| | | |]; try discriminate.
  injection Hup as <-.
  destruct item as [| | |s|fields| | |]; try discriminate.
  { simpl in Hget. destruct (String.get 1 s) as [c|]; [|discriminate].
    injection Hget as <-.
    destruct (one_character_is_no_direction c) as [Ha Hd].
    rewrite (decide_False _ _ Ha), (decide_False _ _ Hd) in H. discriminate. }
  simpl in Hget. destruct (fields !! 1%nat) as [v|] eqn:Hl; [|discriminate].
  injection Hget as ->. exists fields, token.
  assert (Hset : forall v, setitem1 (PList fields) v = Ret item' ->
                           item' = PList (<[1%nat := v]> fields)).
  { intros v Hv. simpl in Hv.
    destruct (decide (1 < length fields)%nat); [|discriminate]. by injection Hv. }
  unfold valid_direction, direction_value.
  destruct (decide (upper token = "ASCENDING")) as [Hu|Hu].
  - apply upper_is_ascending in Hu. rewrite (decide_True _ _ Hu).
    apply result_bind_ret in H as (_ & _ & H). apply Hset in H. auto.
  - destruct (decide (upper token = "DESCENDING")) as [Hv|Hv]; [|discriminate].
    rewrite upper_is_ascending in Hu. rewrite (decide_False _ _ Hu).
    apply upper_is_descending in Hv.
    apply result_bind_ret in H as (_ & _ & H). apply Hset in H. auto.
Qed.

Lemma fix_items_returned (g : Globals) (items items' : list pyval) :
  fix_items g items = Ret items' -> Forall2 normalised_from items items'.
Proof.
  revert items'. induction items as [|item items IH]; intros items' H; simpl in H.
  - injection H as <-. constructor.
  - apply result_bind_ret in H as (item' & Hitem & H).
    apply result_bind_ret in H as (rest' & Hrest & H).
    injection H as <-. constructor; [by apply (fix_item_returned g)|by apply IH].
Qed.

(** X3. Whenever sort normalisation returns a list, it has as many items as
    it was given, in the same order; every item given was a list whose
    second element is a string naming a direction up to case, and the item
    returned is that list with only the second element replaced, by the
    value of the direction.  Longer items keep their other elements. *)
Theorem normalisation_returns_only_normalised_lists
    (g : Globals) (items : list pyval) (out : pyval) :
  _fix_sort_parameter g (PList items) = Ret out ->
  exists items',
    out = PList items' /\
    length items' = length items /\
    Forall2 normalised_from items items'.
Proof.
  simpl. intros H. apply result_bind_ret in H as (items' & Hitems & H).
  injection H as <-. exists items'. split; [done|].
  apply fix_items_returned in Hitems. split; [|done].
  symmetry. by eapply Forall2_length.
Qed.

Lemma normalisation_returns_only_normalised_lists_witness :
  let g := import_block modern in
  let items := [PList [PStr "age"; PStr "Descending"; PStr "comment"]] in
  let out := PList [PList [PStr "age"; PInt (-1); PStr "comment"]] in
  _fix_sort_parameter g (PList items) = Ret out /\
  exists items',
    out = PList items' /\
    length items' = length items /\
    Forall2 normalised_from items items'.
Proof.
  intros g items out.
  assert (H : _fix_sort_parameter g (PList items) = Ret out)
    by (vm_compute; reflexivity).
  split; [exact H|].
  exact (normalisation_returns_only_normalised_lists g items out H).
Defined.

Lemma fix_items_fails (g : Globals) (pre post : list pyval) (item : pyval) (msg : string) :
  Forall (normalises g) pre -> fix_item g item = FailJson msg ->
  fix_items g (pre ++ item :: post) = FailJson msg.
Proof.
  intros Hpre Hitem. induction Hpre as [|it pre [it' Hit] _ IH]; simpl.
  - by rewrite Hitem.
  - by rewrite Hit, IH.
Qed.

(** X4. A sort item that is a list with fewer than two elements makes sort
    normalisation raise an unhandled IndexError once the items before it
    were normalised; the items after it are not looked at. *)
Theorem short_item_raises_index_error
    (g : Globals) (pre post fields : list pyval) :
  (length fields < 2)%nat ->
  Forall (normalises g) pre ->
  _fix_sort_parameter g (PList (pre ++ PList fields :: post)) = Raise IndexError.
Proof.
  intros Hlen Hpre. simpl.
  rewrite (fix_items_stops g pre post (PList fields) IndexError Hpre); [done|].
  unfold fix_item. simpl.
  destruct (fields !! 1%nat) eqn:Hl; [|done].
  apply lookup_lt_Some in Hl. lia.
Qed.

Lemma short_item_raises_index_error_witness :
  let g := import_block modern in
  let pre := [PList [PStr "name"; PStr "ascending"]] in
  (length [PStr "age"] < 2)%nat /\
  Forall (normalises g) pre /\
  _fix_sort_parameter g (PList (pre ++ PList [PStr "age"] :: [PInt 7]))
    = Raise IndexError.
Proof.
  intros g pre.
  assert (H1 : (length [PStr "age"] < 2)%nat) by (simpl; lia).
  assert (H2 : Forall (normalises g) pre).
  { constructor; [|constructor]. eexists. by vm_compute. }
  split; [exact H1|]. split; [exact H2|].
  exact (short_item_raises_index_error g pre [PInt 7] [PStr "age"] H1 H2).
Defined.

(** X5. A sort item that is a string and not a list is never accepted: the
    loop takes its second character for the direction token.  When the items
    before it were normalised, a string of fewer than two characters ends
    the call with an unhandled IndexError, and a longer one with the
    structured failure, whose message quotes that one character. *)
Theorem string_item_is_refused
    (g : Globals) (pre post : list pyval) (s : string) :
  Forall (normalises g) pre ->
  _fix_sort_parameter g (PList (pre ++ PStr s :: post)) =
    match String.get 1 s with
    | None => Raise IndexError
    | Some c => FailJson (invalid_sort_msg (String c EmptyString))
    end.
Proof.
  intros Hpre. simpl. destruct (String.get 1 s) as [c|] eqn:Hc.
  - rewrite (fix_items_fails g pre post (PStr s)
               (invalid_sort_msg (String c EmptyString)) Hpre); [done|].
    unfold fix_item. simpl. rewrite Hc. cbn [mbind result_bind upper_method].
    destruct (one_character_is_no_direction c) as [Ha Hd].
    by rewrite (decide_False _ _ Ha), (decide_False _ _ Hd).
  - rewrite (fix_items_stops g pre post (PStr s) IndexError Hpre); [done|].
    unfold fix_item. simpl. by rewrite Hc.
Qed.

Lemma string_item_is_refused_witness :
  let g := import_block modern in
  Forall (normalises g) [] /\
  _fix_sort_parameter g (PList ([] ++ PStr "name" :: [PStr "ASCENDING"]))
    = FailJson "Invalid Sort parameter [a]. It must be either ASCENDING or DESCENDING".
Proof.
  intros g.
  assert (H : Forall (normalises g) []) by constructor.
  split; [exact H|].
  exact (string_item_is_refused g [] [PStr "ASCENDING"] "name" H).
Defined.

(** X6. Sort normalisation cannot be applied twice: the list it returns for
    a non-empty specification holds the enum values where the strings were,
    and a second call on it raises an unhandled AttributeError at the first
    item. *)
Theorem normalisation_is_not_idempotent
    (g : Globals) (pairs : list (pyval * string)) :
  sort_constants_bound g ->
  Forall (fun p => valid_direction (snd p)) pairs ->
  pairs <> [] ->
  exists out,
    _fix_sort_parameter g (PList (map pair_item pairs)) = Ret out /\
    _fix_sort_parameter g out = Raise (AttributeError "upper").
Proof.
  intros Hg Hall Hne. exists (PList (map normalised_pair pairs)). split.
  - simpl. by rewrite (fix_items_valid g pairs Hg Hall).
  - destruct pairs as [|[f token] pairs]; [done|].
    assert (Hitem : fix_item g (normalised_pair (f, token))
                    = Raise (AttributeError "upper")).
    { apply (fix_item_non_string g [f; direction_value token] (direction_value token));
        [done|].
      intros s. unfold direction_value. by destruct (decide _). }
    simpl. by rewrite Hitem.
Qed.

Lemma normalisation_is_not_idempotent_witness :
  let g := import_block modern in
  let pairs := [(PStr "name", "ascending")] in
  sort_constants_bound g /\
  Forall (fun p => valid_direction (snd p)) pairs /\
  pairs <> [] /\
  exists out,
    _fix_sort_parameter g (PList (map pair_item pairs)) = Ret out /\
    _fix_sort_parameter g out = Raise (AttributeError "upper").
Proof.
  intros g pairs.
  assert (H1 : sort_constants_bound g) by exact modern_sort_constants_bound.
  assert (H2 : Forall (fun p => valid_direction (snd p)) pairs) by compute_done.
  assert (H3 : pairs <> []) by discriminate.
  split; [exact H1|]. split; [exact H2|]. split; [exact H3|].
  exact (normalisation_is_not_idempotent g pairs H1 H2 H3).
Defined.

(** ** [main] (lines 160-199) *)

(** Either [main] ends before the [try], in the state it started in, or the
    query block runs with the validated parameters and the normalised sort
    specification. *)
Lemma main_inversion (w : World) (args : gmap string pyval) (s s' : State)
    (r : result unit) :
  main w args s = (r, s') ->
  (s' = s /\ stops_early w args r) \/
  (exists params sort,
     AnsibleModule w argument_spec args = Ret params /\
     pymongo_found (import_block (installed w)) = true /\
     _fix_sort_parameter (import_block (installed w)) (the params "sort") = Ret sort /\
     try_except
       (query_block w (import_block (installed w))
          (the params "connection_string") (request_of params sort))
       (connection_failure_handler (import_block (installed w))) s = (r, s')).
Proof.
  intros H.
  destruct (AnsibleModule w argument_spec args) as [params|e|msg] eqn:HA.
  - destruct (pymongo_found (import_block (installed w))) eqn:Hfound.
    + rewrite (main_after_validation w args params s HA Hfound) in H.
      destruct (_fix_sort_parameter _ _) as [sort|e|msg] eqn:Hsort.
      * right. by exists params, sort.
      * injection H as <- <-. left. split; [done|].
        by apply (stops_in_sort_exception w args params).
      * injection H as <- <-. left. split; [done|].
        by apply (stops_in_sort_failure w args params).
    + rewrite (main_without_driver w args params s HA Hfound) in H.
      injection H as <- <-. left. split; [done|].
      by apply (stops_without_driver w args params).
  - by destruct (AnsibleModule_no_raise w argument_spec args e).
  - rewrite (proj2 (main_without_module w args s) msg HA) in H.
    injection H as <- <-. left. split; [done|]. by apply stops_in_validation.
Qed.

(** The driver calls of the query block are an initial part of connect,
    find, iterate; a line is printed only after all three, and the block
    never just returns. *)
Lemma query_block_calls (w : World) (g : Globals) (cs : pyval)
    (req : FindRequest) (s s' : State) (r : result unit) :
  try_except (query_block w g cs req) (connection_failure_handler g) s = (r, s') ->
  exists calls,
    trace s' = trace s ++ calls /\
    calls `prefix_of` driver_calls cs req /\
    r <> Ret tt /\
    (stdout s' = stdout s \/
     (calls = driver_calls cs req /\
      exists docs, drv_iterate (driver w) req = inr docs /\
        stdout s' = stdout s ++ [drv_encode (driver w) (envelope docs)])).
Proof.
  unfold_block. unfold lookup_name, driver_calls. intros H.
  destruct (decide ("ConnectionFailure" ∈ bound g));
  destruct (decide ("MongoClient" ∈ bound g));
  destruct (decide ("json_util" ∈ bound g));
  destruct (drv_connect (driver w) cs) as [[]|];
  destruct (drv_find (driver w) req) as [[]|];
  destruct (drv_iterate (driver w) req) as [[]|docs];
  simpl in H; injection H as <- <-; simpl; rewrite <- ?app_assoc; simpl.
  all: first
    [ exists []; rewrite app_nil_r; split; [reflexivity|];
      split; [by eexists|]; split; [done|]; by left
    | eexists; split; [reflexivity|];
      split; [by eexists|]; split; [done|];
      first [ by left | right; split; [reflexivity|]; by exists docs ] ].
Qed.

(** X7. Whatever the parameters, the host and the driver, a run of [main]
    calls the driver at most three times, in the order connect, find,
    iterate, each at most once and none without the one before it; it prints
    at most one line, and only after all three calls; and it never returns
    to its caller: it ends in [sys.exit], [fail_json] or an exception. *)
Theorem main_calls_the_driver_in_order
    (w : World) (args : gmap string pyval) (s s' : State) (r : result unit) :
  main w args s = (r, s') ->
  exists cs req calls,
    trace s' = trace s ++ calls /\
    calls `prefix_of` driver_calls cs req /\
    r <> Ret tt /\
    (stdout s' = stdout s \/
     (calls = driver_calls cs req /\ exists line, stdout s' = stdout s ++ [line])).
Proof.
  intros H. apply main_inversion in H as [[-> Hearly]|(params & sort & _ & _ & _ & H)].
  - exists PNone, (request_of ∅ PNone), []. rewrite app_nil_r.
    split; [done|]. split; [by eexists|]. split; [by destruct Hearly|]. by left.
  - apply query_block_calls in H as (calls & Htrace & Hpre & Hret & Hout).
    exists (the params "connection_string"), (request_of params sort), calls.
    repeat (split; [done|]).
    destruct Hout as [Hout|(-> & docs & _ & Hout)]; [by left|right].
    split; [done|]. by eexists.
Qed.

Lemma main_calls_the_driver_in_order_witness :
  let w := world modern (refusing "unknown operator") in
  let s' := {| trace := driver_calls (PStr "mongodb://localhost/") startup_log_request;
               stdout := [] |} in
  let r := Raise (DriverExn (OperationFailure "unknown operator")) in
  main w startup_log_task initial = (r, s') /\
  exists cs req calls,
    trace s' = trace initial ++ calls /\
    calls `prefix_of` driver_calls cs req /\
    r <> Ret tt /\
    (stdout s' = stdout initial \/
     (calls = driver_calls cs req /\ exists line, stdout s' = stdout initial ++ [line])).
Proof.
  intros w s' r.
  assert (H : main w startup_log_task initial = (r, s')) by (vm_compute; reflexivity).
  split; [exact H|].
  exact (main_calls_the_driver_in_order w startup_log_task initial s' r H).
Defined.

(** X8. If a run of [main] called the driver or printed anything, then
    [AnsibleModule] had accepted the parameters, the driver had been found
    and the sort specification had been normalised; the first thing sent to
    the driver is the connection string.  Every earlier end leaves the state
    as it was. *)
Theorem nothing_happens_before_validation
    (w : World) (args : gmap string pyval) (s s' : State) (r : result unit) :
  main w args s = (r, s') ->
  s' <> s ->
  exists params sort rest,
    AnsibleModule w argument_spec args = Ret params /\
    pymongo_found (import_block (installed w)) = true /\
    _fix_sort_parameter (import_block (installed w)) (the params "sort") = Ret sort /\
    trace s' = trace s ++ EvConnect (the params "connection_string") :: rest.
Proof.
  intros H Hne.
  apply main_inversion in H as [[-> _]|(params & sort & HA & Hf & Hs & H)]; [done|].
  apply query_block_calls in H as (calls & Htrace & Hpre & _ & Hout).
  destruct calls as [|c rest].
  - destruct Hout as [Hout|(Hc & _)]; [|discriminate].
    destruct Hne. destruct s, s'; simpl in *. rewrite app_nil_r in Htrace.
    by subst.
  - exists params, sort, rest. repeat (split; [done|]).
    destruct Hpre as [k Hk]. unfold driver_calls in Hk. simpl in Hk.
    injection Hk as <- _. done.
Qed.

Lemma nothing_happens_before_validation_witness :
  let w := world modern (refusing_connections "no route to host") in
  let s' := {| trace := [EvConnect (PStr "mongodb://localhost/")]; stdout := [] |} in
  let r := FailJson "unable to connect to database: no route to host" in
  main w startup_log_task initial = (r, s') /\
  s' <> initial /\
  exists params sort rest,
    AnsibleModule w argument_spec startup_log_task = Ret params /\
    pymongo_found (import_block (installed w)) = true /\
    _fix_sort_parameter (import_block (installed w)) (the params "sort") = Ret sort /\
    trace s' = trace initial ++ EvConnect (the params "connection_string") :: rest.
Proof.
  intros w s' r.
  assert (H1 : main w startup_log_task initial = (r, s')) by (vm_compute; reflexivity).
  assert (H2 : s' <> initial) by discriminate.
  split; [exact H1|]. split; [exact H2|].
  exact (nothing_happens_before_validation w startup_log_task initial s' r H1 H2).
Defined.

Lemma main_driver_failure_witness :
  let w := world modern (unreachable "no route to host") in
  let params := params_of w startup_log_task in
  AnsibleModule w argument_spec startup_log_task = Ret params /\
  pymongo_found (import_block (installed w)) = true /\
  query_names_bound (import_block (installed w)) /\
  _fix_sort_parameter (import_block (installed w)) (the params "sort") = Ret PNone /\
  fails_with w (the params "connection_string") (request_of params PNone)
    (ConnectionFailure "no route to host")
    (driver_calls (the params "connection_string") (request_of params PNone)) /\
  main w startup_log_task initial =
    (FailJson "unable to connect to database: no route to host",
     {| trace := trace initial ++
                 driver_calls (the params "connection_string") (request_of params PNone);
        stdout := stdout initial |}).
Proof.
  intros w params.
  assert (H1 : AnsibleModule w argument_spec startup_log_task = Ret params)
    by (apply params_of_returned; vm_compute; reflexivity).
  assert (H2 : pymongo_found (import_block (installed w)) = true)
    by (vm_compute; reflexivity).
  assert (H3 : query_names_bound (import_block (installed w)))
    by (repeat split; compute_done).
  assert (H4 : _fix_sort_parameter (import_block (installed w)) (the params "sort")
               = Ret PNone) by (vm_compute; reflexivity).
  assert (H5 : fails_with w (the params "connection_string") (request_of params PNone)
                 (ConnectionFailure "no route to host")
                 (driver_calls (the params "connection_string")
                    (request_of params PNone)))
    by (apply fails_iterating; reflexivity).
  repeat (split; [assumption|]).
  exact (main_driver_failure w startup_log_task params PNone
           (ConnectionFailure "no route to host") _ initial H1 H2 H3 H4 H5).
Defined.

Lemma lookup_name_exception (g : Globals) (name : string) (e : exn) :
  lookup_name g name = Raise e -> e = NameError name /\ name ∉ bound g.
Proof.
  unfold lookup_name. destruct (decide _); [done|]. by intros [= <-].
Qed.

Lemma fix_item_exception (g : Globals) (item : pyval) (e : exn) :
  fix_item g item = Raise e -> sort_exception g e.
Proof.
  unfold fix_item. intros H.
  apply result_bind_raise in H as [H|(tok & _ & H)].
  { destruct item as [| | |s|items| | |]; simpl in H; try (by injection H as <-).
    - destruct (String.get 1 s); [done|]. by injection H as <-.
    - destruct (items !! 1%nat); [done|]. by injection H as <-. }
  apply result_bind_raise in H as [H|(up & _ & H)].
  { destruct tok; simpl in H; try (by injection H as <-). done. }
  assert (Hset : forall v, setitem1 item v = Raise e -> sort_exception g e).
  { intros v Hv. destruct item as [| | | |items| | |]; simpl in Hv;
      try (by injection Hv as <-).
    destruct (decide (1 < length items)%nat); [done|]. by injection Hv as <-. }
  destruct (decide (up = "ASCENDING")).
  - apply result_bind_raise in H as [H|(_ & _ & H)]; [|by apply Hset in H].
    apply lookup_name_exception in H as [-> Hn]. simpl. auto.
  - destruct (decide (up = "DESCENDING")); [|done].
    apply result_bind_raise in H as [H|(_ & _ & H)]; [|by apply Hset in H].
    apply lookup_name_exception in H as [-> Hn]. simpl. auto.
Qed.

Lemma fix_items_exception (g : Globals) (items : list pyval) (e : exn) :
  fix_items g items = Raise e -> sort_exception g e.
Proof.
  induction items as [|item items IH]; simpl; [done|]. intros H.
  apply result_bind_raise in H as [H|(item' & _ & H)];
    [by apply fix_item_exception in H|].
  apply result_bind_raise in H as [H|(rest' & _ & H)]; [by apply IH|done].
Qed.

Lemma fix_sort_parameter_exception (g : Globals) (v : pyval) (e : exn) :
  _fix_sort_parameter g v = Raise e -> sort_exception g e.
Proof.
  intros H. destruct v; simpl in H; try (by injection H as <-); try done.
  all: apply result_bind_raise in H as [H|(? & _ & H)]; [|done].
  all: by apply fix_items_exception in H.
Qed.

(** With the three names bound, the query block ends in [sys.exit(0)], in
    the structured connection failure, or in a driver exception that is not a
    connection failure. *)
Lemma query_block_ends (w : World) (g : Globals) (cs : pyval)
    (req : FindRequest) (s s' : State) (r : result unit) :
  query_names_bound g ->
  try_except (query_block w g cs req) (connection_failure_handler g) s = (r, s') ->
  r = Raise (SystemExit 0) \/
  (exists m, r = FailJson ("unable to connect to database: " +:+ m)) \/
  (exists e, r = Raise (DriverExn e) /\ forall m, e <> ConnectionFailure m).
Proof.
  intros (Hm & Hj & Hc). unfold_block.
  rewrite (lookup_name_bound g _ Hm), (lookup_name_bound g _ Hj),
    (lookup_name_bound g _ Hc). intros H.
  destruct (drv_connect (driver w) cs) as [[]|];
  destruct (drv_find (driver w) req) as [[]|];
  destruct (drv_iterate (driver w) req) as [[]|docs];
  simpl in H; injection H as <- <-; eauto 6.
Qed.

(** X10. When every import of the [try] body succeeded, a run of [main]
    ends in one of four ways only: a structured failure through
    [fail_json]; [sys.exit(0)]; an AttributeError, TypeError, IndexError or
    KeyError out of sort normalisation, before anything was sent to the
    driver; or a driver exception that is not a connection failure.  It
    never ends in a NameError, and no connection failure escapes it. *)
Theorem ends_of_main_when_all_imports_succeed
    (w : World) (args : gmap string pyval) (s s' : State) (r : result unit) :
  snd (run_imports (import_statements (installed w)) ∅) = true ->
  main w args s = (r, s') ->
  (exists msg, r = FailJson msg) \/
  r = Raise (SystemExit 0) \/
  (exists e, r = Raise e /\ s' = s /\
     match e with
     | AttributeError _ | TypeError _ | IndexError | KeyError _ => True
     | _ => False
     end) \/
  (exists e, r = Raise (DriverExn e) /\ forall m, e <> ConnectionFailure m).
Proof.
  intros Himp H.
  assert (Hg : sort_constants_bound (import_block (installed w)) /\
               query_names_bound (import_block (installed w))).
  { destruct (installed w) as [[] [] [] [] [] [] []]; try discriminate Himp;
      repeat split; compute_done. }
  destruct Hg as [[Ha Hd] Hq].
  apply main_inversion in H as [[-> Hearly]|(params & sort & _ & _ & _ & H)].
  - destruct Hearly as [msg _|params _ _|params msg _ _ _|params e _ _ Hsort];
      [left; eauto..|].
    right. right. left. exists e. split; [done|]. split; [done|].
    apply fix_sort_parameter_exception in Hsort.
    destruct e as [name| | | | | |]; simpl in Hsort; try done.
    destruct Hsort as [[-> | ->] Hn]; by destruct Hn.
  - destruct (query_block_ends _ _ _ _ _ _ _ Hq H) as [->|[[m ->]|(e & -> & He)]];
      [by right; left|left; eauto|right; right; right; eauto].
Qed.

Lemma ends_of_main_when_all_imports_succeed_witness :
  let w := world modern (serving one_record) in
  let args := task [("db", PStr "local"); ("collection", PStr "startup_log");
                    ("sort", PList [PList [PStr "hostname"]])] in
  snd (run_imports (import_statements (installed w)) ∅) = true /\
  main w args initial = (Raise IndexError, initial) /\
  ((exists msg, @Raise unit IndexError = FailJson msg) \/
   @Raise unit IndexError = Raise (SystemExit 0) \/
   (exists e, @Raise unit IndexError = Raise e /\ initial = initial /\
      match e with
      | AttributeError _ | TypeError _ | IndexError | KeyError _ => True
      | _ => False
      end) \/
   (exists e, @Raise unit IndexError = Raise (DriverExn e) /\
      forall m, e <> ConnectionFailure m)).
Proof.
  intros w args.
  assert (H1 : snd (run_imports (import_statements (installed w)) ∅) = true)
    by reflexivity.
  assert (H2 : main w args initial = (Raise IndexError, initial))
    by (vm_compute; reflexivity).
  split; [exact H1|]. split; [exact H2|].
  exact (ends_of_main_when_all_imports_succeed w args initial initial _ H1 H2).
Defined.

(** X11. When the import of the sort constants or of [ConnectionFailure]
    fails after [json_util] was imported, and the fallback import succeeds,
    a run whose driver calls all succeed prints its result and then fails:
    [sys.exit(0)] raises SystemExit inside the [try], the [except] clause
    looks [ConnectionFailure] up, and the run ends in an unhandled NameError
    with the envelope already on standard output. *)
Theorem result_printed_then_name_error
    (w : World) (args params : gmap string pyval) (sort : pyval)
    (docs : list pyval) (s : State) :
  bson_json_util (installed w) = true ->
  pymongo_sort_constants (installed w) = false \/
    pymongo_ConnectionFailure (installed w) = false ->
  pymongo_Connection (installed w) = true ->
  AnsibleModule w argument_spec args = Ret params ->
  _fix_sort_parameter (import_block (installed w)) (the params "sort") = Ret sort ->
  drv_connect (driver w) (the params "connection_string") = None ->
  drv_find (driver w) (request_of params sort) = None ->
  drv_iterate (driver w) (request_of params sort) = inr docs ->
  main w args s =
    (Raise (NameError "ConnectionFailure"),
     {| trace := trace s ++ driver_calls (the params "connection_string")
                              (request_of params sort);
        stdout := stdout s ++ [drv_encode (driver w) (envelope docs)] |}).
Proof.
  intros Hb Hor Hc HA Hsort Hconn Hfind Hiter.
  assert (Hg : pymongo_found (import_block (installed w)) = true /\
               "MongoClient" ∈ bound (import_block (installed w)) /\
               "json_util" ∈ bound (import_block (installed w)) /\
               "ConnectionFailure" ∉ bound (import_block (installed w))).
  { destruct (installed w) as [[] [] [] [] [] [] []]; simpl in Hb, Hor, Hc;
      try discriminate; destruct Hor; try discriminate;
      repeat split; compute_done. }
  destruct Hg as (Hfound & Hm & Hj & Hn).
  rewrite (main_after_validation w args params s HA Hfound), Hsort.
  unfold_block.
  rewrite (lookup_name_bound _ _ Hm), (lookup_name_bound _ _ Hj),
    (lookup_name_unbound _ _ Hn), Hconn, Hfind, Hiter. simpl.
  unfold driver_calls. by rewrite <- !app_assoc.
Qed.

Lemma result_printed_then_name_error_witness :
  let w := world constants_missing (serving one_record) in
  let params := params_of w startup_log_task in
  bson_json_util (installed w) = true /\
  (pymongo_sort_constants (installed w) = false \/
     pymongo_ConnectionFailure (installed w) = false) /\
  pymongo_Connection (installed w) = true /\
  AnsibleModule w argument_spec startup_log_task = Ret params /\
  _fix_sort_parameter (import_block (installed w)) (the params "sort") = Ret PNone /\
  drv_connect (driver w) (the params "connection_string") = None /\
  drv_find (driver w) (request_of params PNone) = None /\
  drv_iterate (driver w) (request_of params PNone) = inr one_record /\
  main w startup_log_task initial =
    (Raise (NameError "ConnectionFailure"),
     {| trace := trace initial ++ driver_calls (the params "connection_string")
                                    (request_of params PNone);
        stdout := stdout initial ++ [drv_encode (driver w) (envelope one_record)] |}).
Proof.
  intros w params.
  assert (H1 : bson_json_util (installed w) = true) by reflexivity.
  assert (H2 : pymongo_sort_constants (installed w) = false \/
               pymongo_ConnectionFailure (installed w) = false) by (left; reflexivity).
  assert (H3 : pymongo_Connection (installed w) = true) by reflexivity.
  assert (H4 : AnsibleModule w argument_spec startup_log_task = Ret params)
    by (apply params_of_returned; vm_compute; reflexivity).
  assert (H5 : _fix_sort_parameter (import_block (installed w)) (the params "sort")
               = Ret PNone) by (vm_compute; reflexivity).
  assert (H6 : drv_connect (driver w) (the params "connection_string") = None)
    by reflexivity.
  assert (H7 : drv_find (driver w) (request_of params PNone) = None) by reflexivity.
  assert (H8 : drv_iterate (driver w) (request_of params PNone) = inr one_record)
    by reflexivity.
  repeat (split; [assumption|]).
  exact (result_printed_then_name_error w startup_log_task params PNone one_record
           initial H1 H2 H3 H4 H5 H6 H7 H8).
Defined.

(** X12. A run whose parameters were accepted, whose sort specification was
    normalised and whose three driver calls succeed, on a host where the
    three names of the query block are bound, connects with the connection
    string, asks for one find with the parameters and the normalised sort,
    reads the cursor to its end, prints the encoded envelope of all its
    documents as the only line, and ends with [sys.exit(0)]. *)
Theorem main_succeeds_when_the_driver_does
    (w : World) (args params : gmap string pyval) (sort : pyval)
    (docs : list pyval) (s : State) :
  AnsibleModule w argument_spec args = Ret params ->
  pymongo_found (import_block (installed w)) = true ->
  query_names_bound (import_block (installed w)) ->
  _fix_sort_parameter (import_block (installed w)) (the params "sort") = Ret sort ->
  drv_connect (driver w) (the params "connection_string") = None ->
  drv_find (driver w) (request_of params sort) = None ->
  drv_iterate (driver w) (request_of params sort) = inr docs ->
  main w args s =
    (Raise (SystemExit 0),
     {| trace := trace s ++ driver_calls (the params "connection_string")
                              (request_of params sort);
        stdout := stdout s ++ [drv_encode (driver w) (envelope docs)] |}) /\
  exit_code (fst (main w args s)) = 0.
Proof.
  intros HA Hfound Hg Hsort Hconn Hfind Hiter.
  assert (H : main w args s =
    (Raise (SystemExit 0),
     {| trace := trace s ++ driver_calls (the params "connection_string")
                              (request_of params sort);
        stdout := stdout s ++ [drv_encode (driver w) (envelope docs)] |})).
  { rewrite (main_after_validation w args params s HA Hfound), Hsort.
    by apply query_block_succeeds. }
  split; [exact H|]. by rewrite H.
Qed.

Lemma main_succeeds_when_the_driver_does_witness :
  let w := world pymongo_2_2 (serving one_record) in
  let params := params_of w sorted_task in
  let sort := PList [PList [PStr "name"; PInt 1]] in
  AnsibleModule w argument_spec sorted_task = Ret params /\
  pymongo_found (import_block (installed w)) = true /\
  query_names_bound (import_block (installed w)) /\
  _fix_sort_parameter (import_block (installed w)) (the params "sort") = Ret sort /\
  drv_connect (driver w) (the params "connection_string") = None /\
  drv_find (driver w) (request_of params sort) = None /\
  drv_iterate (driver w) (request_of params sort) = inr one_record /\
  exit_code (fst (main w sorted_task initial)) = 0.
Proof.
  intros w params sort.
  assert (H1 : AnsibleModule w argument_spec sorted_task = Ret params)
    by (apply params_of_returned; vm_compute; reflexivity).
  assert (H2 : pymongo_found (import_block (installed w)) = true)
    by (vm_compute; reflexivity).
  assert (H3 : query_names_bound (import_block (installed w)))
    by (repeat split; compute_done).
  assert (H4 : _fix_sort_parameter (import_block (installed w)) (the params "sort")
               = Ret sort) by (vm_compute; reflexivity).
  assert (H5 : drv_connect (driver w) (the params "connection_string") = None)
    by reflexivity.
  assert (H6 : drv_find (driver w) (request_of params sort) = None) by reflexivity.
  assert (H7 : drv_iterate (driver w) (request_of params sort) = inr one_record)
    by reflexivity.
  repeat (split; [assumption|]).
  exact (proj2 (main_succeeds_when_the_driver_does w sorted_task params sort
                  one_record initial H1 H2 H3 H4 H5 H6 H7)).
Defined.
